(** * Keyword discovery and pipeline orchestration of the autonomous blog

    A shallow embedding of [pipeline/keyword_discovery.py] and
    [pipeline/run_pipeline.py].  Python values are modelled by [pyval],
    exceptions by [exn], the file system, the clock, the log and the
    standard output by [World].  Code that may raise and has effects lives
    in the monad [M]; collaborators whose code is elsewhere (the providers
    an object dispatches to, the eight stage modules, [argparse]) are
    black boxes of type [BB]. *)

From Stdlib Require Import PrimFloat ZArith Ascii String List Bool Lia.
From stdpp Require Import gmap strings list.

Local Open Scope Z_scope.
#[local] Set Warnings "-inexact-float".

(** ** Python values *)

(** The fragment of Python objects the two modules handle.  [PObject] stands
    for an instance of some other class, which has no length and which
    [json] cannot serialise: it carries its class name and its truth value.
    Dictionaries have [str] keys and keep insertion order.  Strings are
    UTF-8 byte strings. *)
#[local] Unset Elimination Schemes.
Inductive pyval : Type :=
  | PNone
  | PBool (b : bool)
  | PInt (n : Z)
  | PFloat (x : float)
  | PStr (s : string)
  | PList (items : list pyval)
  | PTuple (items : list pyval)
  | PDict (entries : list (string * pyval))
  | PObject (cls : string) (truth : bool).
#[local] Set Elimination Schemes.

(** An instance of [Exception]; [str(e)] is [exn_msg e].  Signals that are
    not instances of [Exception] ([KeyboardInterrupt], [SystemExit]) are not
    exceptions of this type. *)
Record exn : Type := Exn { exn_class : string; exn_msg : string }.

Inductive outcome (A : Type) : Type :=
  | Ok (a : A)
  | Raise (e : exn).
Arguments Ok {A} a.
Arguments Raise {A} e.

(** [bool(v)], as used by [if not result]. *)
Definition py_truthy (v : pyval) : bool :=
  match v with
  | PNone => false
  | PBool b => b
  | PInt n => negb (n =? 0)
  | PFloat x => negb (PrimFloat.eqb x 0%float)
  | PStr s => negb (String.eqb s "")
  | PList l | PTuple l => match l with [] => false | _ => true end
  | PDict d => match d with [] => false | _ => true end
  | PObject _ t => t
  end.

Definition py_type_name (v : pyval) : string :=
  match v with
  | PNone => "NoneType"
  | PBool _ => "bool"
  | PInt _ => "int"
  | PFloat _ => "float"
  | PStr _ => "str"
  | PList _ => "list"
  | PTuple _ => "tuple"
  | PDict _ => "dict"
  | PObject c _ => c
  end.

(** A byte of a UTF-8 string that continues a code point: [10xxxxxx]. *)
Definition utf8_continuation (c : ascii) : bool :=
  match c with
  | Ascii _ _ _ _ _ _ b6 b7 => b7 && negb b6
  end.

Fixpoint str_len (s : string) : nat :=
  match s with
  | EmptyString => O
  | String c r => if utf8_continuation c then str_len r else S (str_len r)
  end.

(** [len(v)]: defined on strings and containers, [TypeError] otherwise. *)
Definition py_len (v : pyval) : outcome Z :=
  match v with
  | PStr s => Ok (Z.of_nat (str_len s))
  | PList l | PTuple l => Ok (Z.of_nat (length l))
  | PDict d => Ok (Z.of_nat (length d))
  | _ => Raise (Exn "TypeError"
                  ("object of type '" +:+ py_type_name v +:+ "' has no len()"))
  end.

(** [d[k] = v] on an insertion-ordered dictionary: an existing key keeps its
    position. *)
Fixpoint dict_set (k : string) (v : pyval) (d : list (string * pyval))
  : list (string * pyval) :=
  match d with
  | [] => [(k, v)]
  | (k', v') :: r =>
      if String.eqb k k' then (k, v) :: r else (k', v') :: dict_set k v r
  end.

Fixpoint dict_get (k : string) (d : list (string * pyval)) : option pyval :=
  match d with
  | [] => None
  | (k', v) :: r => if String.eqb k k' then Some v else dict_get k r
  end.

(** [v[k]] for a string key [k]. *)
Definition py_getitem (v : pyval) (k : string) : outcome pyval :=
  match v with
  | PDict d =>
      match dict_get k d with
      | Some x => Ok x
      | None => Raise (Exn "KeyError" ("'" +:+ k +:+ "'"))
      end
  | _ => Raise (Exn "TypeError"
                  ("'" +:+ py_type_name v +:+ "' object is not subscriptable"))
  end.

(** [s.replace(old, new)] for a one-character [old]. *)
Fixpoint str_replace (old : ascii) (new : string) (s : string) : string :=
  match s with
  | EmptyString => EmptyString
  | String c r =>
      if Ascii.eqb c old then new +:+ str_replace old new r
      else String c (str_replace old new r)
  end.

(** ** JSON documents *)

(** What a JSON text denotes.  The text itself (indentation, escapes, the
    digits of a number) is not modelled: a file or an output line that
    holds JSON is represented by the document it parses to. *)
#[local] Unset Elimination Schemes.
Inductive json : Type :=
  | JNull
  | JBool (b : bool)
  | JInt (n : Z)
  | JFloat (x : float)
  | JStr (s : string)
  | JArr (items : list json)
  | JObj (members : list (string * json)).
#[local] Set Elimination Schemes.

Definition not_serializable (v : pyval) : exn :=
  Exn "TypeError"
    ("Object of type " +:+ py_type_name v +:+ " is not JSON serializable").

(** The first error of a list of outcomes, or every result. *)
Fixpoint collect {A : Type} (l : list (outcome A)) : outcome (list A) :=
  match l with
  | [] => Ok []
  | Raise e :: _ => Raise e
  | Ok a :: r =>
      match collect r with
      | Ok r' => Ok (a :: r')
      | Raise e => Raise e
      end
  end.

Definition outcome_map {A B : Type} (f : A -> B) (o : outcome A) : outcome B :=
  match o with
  | Ok a => Ok (f a)
  | Raise e => Raise e
  end.

(** The document [json.dump] writes for a value: tuples become arrays, an
    object outside the JSON data model raises [TypeError]. *)
Fixpoint to_json (v : pyval) : outcome json :=
  match v with
  | PNone => Ok JNull
  | PBool b => Ok (JBool b)
  | PInt n => Ok (JInt n)
  | PFloat x => Ok (JFloat x)
  | PStr s => Ok (JStr s)
  | PList l | PTuple l => outcome_map JArr (collect (map to_json l))
  | PDict d =>
      outcome_map JObj
        (collect (map (fun '(k, x) => outcome_map (pair k) (to_json x)) d))
  | PObject _ _ => Raise (not_serializable v)
  end.

(** A dictionary built by assigning the pairs in order. *)
Definition dict_of_pairs (l : list (string * pyval)) : list (string * pyval) :=
  fold_left (fun d kv => dict_set (fst kv) (snd kv) d) l [].

(** The value [json.load] builds from a document: arrays become lists,
    objects become dictionaries, a repeated member name keeps its first
    position and its last value. *)
Fixpoint of_json (j : json) : pyval :=
  match j with
  | JNull => PNone
  | JBool b => PBool b
  | JInt n => PInt n
  | JFloat x => PFloat x
  | JStr s => PStr s
  | JArr l => PList (map of_json l)
  | JObj ms => PDict (dict_of_pairs (map (fun '(k, x) => (k, of_json x)) ms))
  end.

Fixpoint distinct (l : list string) : bool :=
  match l with
  | [] => true
  | k :: r => negb (existsb (String.eqb k) r) && distinct r
  end.

(** Values that [json.load] gives back unchanged after [json.dump]: no
    tuple, no foreign object, no repeated key. *)
Fixpoint json_exact (v : pyval) : bool :=
  match v with
  | PList l => forallb json_exact l
  | PTuple _ => false
  | PDict d => distinct (map fst d) && forallb (fun '(_, x) => json_exact x) d
  | PObject _ _ => false
  | _ => true
  end.

(** ** The world outside the interpreter *)

(** What a regular file holds, as [open] and [json.load] see it: a text that
    parses to a document, a text that does not parse ([json.load] raises
    [e]), or a file that cannot be opened for reading ([open] raises [e]). *)
Inductive content : Type :=
  | Json (j : json)
  | Unparsable (e : exn)
  | Unreadable (e : exn).

Inductive fnode : Type :=
  | Dir
  | File (c : content).

(** The file system: the nodes that exist, by path, and for every path the
    error [open(path, 'w')] raises there, if any (a missing parent
    directory, a read-only directory or file, a name that is too long). *)
Record filesystem : Type := Filesystem {
  fs_nodes : gmap string fnode;
  fs_wdeny : string -> option exn
}.

Inductive level : Type := INFO | WARNING | ERROR.

(** A log record: the fixed text of the f-string with [{}] for each
    interpolated value, and the values. *)
Record logrec : Type := LogRec {
  log_level : level;
  log_text : string;
  log_args : list pyval
}.

(** A recorded call of a collaborator and how it ended. *)
Inductive call (I : Type) : Type :=
  | Called (who : I) (o : outcome pyval).
Arguments Called {I} who o.

Definition who {I : Type} (c : call I) : I :=
  match c with Called i _ => i end.

Definition how {I : Type} (c : call I) : outcome pyval :=
  match c with Called _ o => o end.

Definition file_not_found (p : string) : exn :=
  Exn "FileNotFoundError" ("[Errno 2] No such file or directory: '" +:+ p +:+ "'").

Definition is_a_directory (p : string) : exn :=
  Exn "IsADirectoryError" ("[Errno 21] Is a directory: '" +:+ p +:+ "'").

(** What [json.load] raises on a file that [json.dump] left unfinished (the
    position the message ends with is not modelled). *)
Definition truncated_document : exn :=
  Exn "JSONDecodeError" "Expecting value".

(** [with open(p, 'r') as f: json.load(f)]. *)
Definition fs_load (fs : filesystem) (p : string) : outcome pyval :=
  match fs_nodes fs !! p with
  | None => Raise (file_not_found p)
  | Some Dir => Raise (is_a_directory p)
  | Some (File (Unreadable e)) => Raise e
  | Some (File (Unparsable e)) => Raise e
  | Some (File (Json j)) => Ok (of_json j)
  end.

(** The error of [open(p, 'w')], if it raises. *)
Definition open_w_error (fs : filesystem) (p : string) : option exn :=
  match fs_nodes fs !! p with
  | Some Dir => Some (is_a_directory p)
  | _ => fs_wdeny fs p
  end.

(** The file at [p] after it was opened for writing and [c] was written: a
    file that cannot be read stays so. *)
Definition fs_store (p : string) (c : content) (fs : filesystem) : filesystem :=
  match fs_nodes fs !! p with
  | Some (File (Unreadable _)) => fs
  | _ => Filesystem (<[p := File c]> (fs_nodes fs)) (fs_wdeny fs)
  end.

(** The error of [with open(p, 'w') as f: json.dump(v, f, indent=2)], if it
    raises. *)
Definition fs_dump_error (fs : filesystem) (p : string) (v : pyval)
  : option exn :=
  match open_w_error fs p with
  | Some e => Some e
  | None => match to_json v with Raise e => Some e | Ok _ => None end
  end.

(** [posixpath.join(a, b)]. *)
Definition str_endswith_slash (s : string) : bool :=
  match rev (list_ascii_of_string s) with
  | c :: _ => Ascii.eqb c "/"
  | [] => false
  end.

Definition os_path_join (a b : string) : string :=
  if String.prefix "/" b then b
  else if String.eqb a "" || str_endswith_slash a then a +:+ b
  else a +:+ "/" +:+ b.

Section Effects.
Context {Ext : Type}.

(** [w_now] is what [datetime.now().isoformat()] returns, [w_stdout] the
    documents printed so far, [w_ext] whatever else the collaborators
    depend on or change (remote services). *)
Record World : Type := MkWorld {
  w_fs : filesystem;
  w_now : string;
  w_log : list logrec;
  w_stdout : list json;
  w_ext : Ext
}.

Definition set_fs (f : filesystem -> filesystem) (w : World) : World :=
  MkWorld (f (w_fs w)) (w_now w) (w_log w) (w_stdout w) (w_ext w).

Definition add_log (l : level) (text : string) (args : list pyval)
    (w : World) : World :=
  MkWorld (w_fs w) (w_now w) (w_log w ++ [LogRec l text args])
          (w_stdout w) (w_ext w).

Definition add_stdout (j : json) (w : World) : World :=
  MkWorld (w_fs w) (w_now w) (w_log w) (w_stdout w ++ [j]) (w_ext w).

(** A collaborator: any code that returns or raises and changes the
    world. *)
Definition BB (A : Type) : Type := World -> outcome A * World.

(** Code of the two modules: it also records the calls it makes. *)
Definition M (E A : Type) : Type := World -> outcome A * World * list E.

#[global] Instance M_ret {E} : MRet (M E) := fun A a w => (Ok a, w, []).

#[global] Instance M_bind {E} : MBind (M E) := fun A B f m w =>
  match m w with
  | (Ok a, w1, t1) => let '(o, w2, t2) := f a w1 in (o, w2, t1 ++ t2)
  | (Raise e, w1, t1) => (Raise e, w1, t1)
  end.

Definition raise {E A} (e : exn) : M E A := fun w => (Raise e, w, []).

Definition lift_outcome {E A} (o : outcome A) : M E A := fun w => (o, w, []).

(** [try: m  except Exception as e: h e]. *)
Definition try_except {E A} (m : M E A) (h : exn -> M E A) : M E A :=
  fun w =>
    match m w with
    | (Ok a, w1, t1) => (Ok a, w1, t1)
    | (Raise e, w1, t1) => let '(o, w2, t2) := h e w1 in (o, w2, t1 ++ t2)
    end.

(** A call of a collaborator, recorded with its outcome. *)
Definition invoke {I} (i : I) (f : BB pyval) : M (call I) pyval :=
  fun w => let '(o, w1) := f w in (o, w1, [Called i o]).

Definition log {E} (l : level) (text : string) (args : list pyval)
  : M E unit :=
  fun w => (Ok tt, add_log l text args w, []).

Definition os_path_exists {E} (p : string) : M E bool :=
  fun w => (Ok (bool_decide (is_Some (fs_nodes (w_fs w) !! p))), w, []).

Definition json_load_file {E} (p : string) : M E pyval :=
  fun w => (fs_load (w_fs w) p, w, []).

Definition json_dump_file {E} (p : string) (v : pyval) : M E unit :=
  fun w =>
    match open_w_error (w_fs w) p with
    | Some e => (Raise e, w, [])
    | None =>
        match to_json v with
        | Ok j => (Ok tt, set_fs (fs_store p (Json j)) w, [])
        | Raise e =>
            (Raise e, set_fs (fs_store p (Unparsable truncated_document)) w, [])
        end
    end.

Definition print_json {E} (v : pyval) : M E unit :=
  fun w =>
    match to_json v with
    | Ok j => (Ok tt, add_stdout j w, [])
    | Raise e => (Raise e, w, [])
    end.
End Effects.

Arguments World : clear implicits.
Arguments BB : clear implicits.
Arguments M : clear implicits.

(** ** [keyword_discovery.py] *)

(** The data sources [discover] can call: the three providers and the
    fallback generator. *)
Inductive source : Type := SerpAPI | KeywordSurfer | GoogleTrends | Fallback.

Definition is_provider (s : source) : bool :=
  match s with Fallback => false | _ => true end.

Section KeywordDiscovery.
Context {Ext : Type}.

(** [_try_serpapi]: the simulated response ([time.sleep] only delays). *)
Definition _try_serpapi (topic : string) : BB Ext pyval := fun w =>
  (Ok (PDict
     [("primary_keyword", PStr topic);
      ("related_queries", PList
         [PStr (topic +:+ " best practices");
          PStr (topic +:+ " examples");
          PStr ("how to " +:+ topic);
          PStr (topic +:+ " tutorial");
          PStr (topic +:+ " for beginners")]);
      ("top_urls", PList
         [PStr ("https://example.com/" +:+ str_replace " " "-" topic +:+ "-guide");
          PStr ("https://example.org/learn-" +:+ str_replace " " "-" topic);
          PStr ("https://tutorial.com/" +:+ str_replace " " "_" topic +:+ "_101")]);
      ("metrics", PDict
         [("search_volume", PInt 1200);
          ("cpc", PFloat 0.75);
          ("competition", PFloat 0.65)]);
      ("source", PStr "serpapi_simulation")]),
   add_log INFO "Using SerpAPI for keyword discovery" [] w).

(** [_try_keywordsurfer]. *)
Definition _try_keywordsurfer (topic : string) : BB Ext pyval := fun w =>
  (Ok (PDict
     [("primary_keyword", PStr topic);
      ("related_queries", PList
         [PStr (topic +:+ " guide");
          PStr ("best " +:+ topic +:+ " practices");
          PStr (topic +:+ " tips and tricks");
          PStr (topic +:+ " for professionals");
          PStr ("advanced " +:+ topic)]);
      ("top_urls", PList
         [PStr ("https://guide.com/complete-" +:+ str_replace " " "-" topic +:+ "-guide");
          PStr ("https://blog.example.com/mastering-" +:+ str_replace " " "-" topic);
          PStr ("https://academy.example.org/" +:+ str_replace " " "_" topic +:+ "_masterclass")]);
      ("metrics", PDict
         [("search_volume", PInt 980);
          ("cpc", PFloat 0.82);
          ("competition", PFloat 0.58)]);
      ("source", PStr "keywordsurfer_simulation")]),
   add_log INFO "Using KeywordSurfer for keyword discovery" [] w).

(** [_try_google_trends]. *)
Definition _try_google_trends (topic : string) : BB Ext pyval := fun w =>
  (Ok (PDict
     [("primary_keyword", PStr topic);
      ("related_queries", PList
         [PStr (topic +:+ " 2025");
          PStr ("latest " +:+ topic +:+ " trends");
          PStr (topic +:+ " innovations");
          PStr ("future of " +:+ topic);
          PStr (topic +:+ " industry insights")]);
      ("top_urls", PList
         [PStr ("https://trends.google.com/trends/explore?q=" +:+ str_replace " " "%20" topic);
          PStr ("https://news.example.com/" +:+ str_replace " " "-" topic +:+ "-trends-2025");
          PStr ("https://research.example.org/future-of-" +:+ str_replace " " "-" topic)]);
      ("metrics", PDict
         [("search_volume", PInt 850);
          ("cpc", PFloat 0.65);
          ("competition", PFloat 0.72)]);
      ("source", PStr "google_trends_simulation")]),
   add_log INFO "Using Google Trends for keyword discovery" [] w).

(** The dictionary [_fallback_method] returns when the clock reads [ts]. *)
Definition fallback_result (topic ts : string) : pyval :=
  let related_queries :=
    [PStr (topic +:+ " guide");
     PStr ("how to " +:+ topic);
     PStr ("best " +:+ topic +:+ " practices");
     PStr (topic +:+ " examples");
     PStr (topic +:+ " tutorial");
     PStr (topic +:+ " for beginners");
     PStr ("advanced " +:+ topic);
     PStr (topic +:+ " tips");
     PStr (topic +:+ " 2025");
     PStr (topic +:+ " tools")] in
  PDict
    [("primary_keyword", PStr topic);
     ("related_queries", PList related_queries);
     ("top_urls", PList []);
     ("metrics", PDict
        [("search_volume", PStr "unknown");
         ("cpc", PStr "unknown");
         ("competition", PStr "unknown")]);
     ("source", PStr "fallback_method");
     ("generated_at", PStr ts)].

(** [_fallback_method]. *)
Definition _fallback_method (topic : string) : BB Ext pyval := fun w =>
  let w1 := add_log INFO "Using fallback method for keyword discovery" [] w in
  (Ok (fallback_result topic (w_now w1)), w1).

(** A [KeywordDiscovery] object: its cache directory and the provider
    methods [self._try_...] resolves to, which a subclass or a test may
    replace. *)
Record KeywordDiscovery : Type := {
  cache_dir : string;
  try_serpapi : string -> BB Ext pyval;
  try_keywordsurfer : string -> BB Ext pyval;
  try_google_trends : string -> BB Ext pyval
}.

(** An instance of the class as it is written. *)
Definition KeywordDiscovery_class (dir : string) : KeywordDiscovery :=
  {| cache_dir := dir;
     try_serpapi := _try_serpapi;
     try_keywordsurfer := _try_keywordsurfer;
     try_google_trends := _try_google_trends |}.

(** The key of a topic in the cache: [topic.replace(' ', '_')]. *)
Definition cache_key (topic : string) : string := str_replace " " "_" topic.

(** [os.path.join(self.cache_dir, f"{topic.replace(' ', '_')}.json")]. *)
Definition cache_file (self : KeywordDiscovery) (topic : string) : string :=
  os_path_join (cache_dir self) (cache_key topic +:+ ".json").

(** [KeywordDiscovery.discover]. *)
Definition discover (self : KeywordDiscovery) (topic : string)
  : M Ext (call source) pyval :=
  let cache_file := cache_file self topic in
  found ← os_path_exists cache_file;
  if found : bool then
    log INFO "Using cached keyword data for '{}'" [PStr topic];;
    json_load_file cache_file
  else
    log INFO "Discovering keywords for topic: {}" [PStr topic];;
    let result := PNone in
    result ← try_except (invoke SerpAPI (try_serpapi self topic))
      (fun e => log WARNING "SerpAPI failed: {}" [PStr (exn_msg e)];;
                mret result);
    result ←
      (if negb (py_truthy result) then
         try_except (invoke KeywordSurfer (try_keywordsurfer self topic))
           (fun e => log WARNING "KeywordSurfer failed: {}" [PStr (exn_msg e)];;
                     mret result)
       else mret result);
    result ←
      (if negb (py_truthy result) then
         try_except (invoke GoogleTrends (try_google_trends self topic))
           (fun e => log WARNING "Google Trends failed: {}" [PStr (exn_msg e)];;
                     mret result)
       else mret result);
    result ←
      (if negb (py_truthy result) then
         log WARNING "All APIs failed, using fallback method" [];;
         invoke Fallback (_fallback_method topic)
       else mret result);
    json_dump_file cache_file result;;
    mret result.
End KeywordDiscovery.

Arguments KeywordDiscovery : clear implicits.

(** ** [run_pipeline.py] *)

(** The nine stages, in the order [run] calls them. *)
Inductive stage : Type :=
  | Keyword | Content | Grammar | Visual | Publish
  | Monetize | Social | Email | Analytics.

Definition stage_order : list stage :=
  [Keyword; Content; Grammar; Visual; Publish; Monetize; Social; Email; Analytics].

(** What [parser.parse_args()] does with a command line: it returns the
    topic and the configuration path, or leaves the interpreter through
    [SystemExit] (a usage error, [--help]). *)
Inductive parse_result : Type :=
  | Parsed (topic config : string)
  | ParserExit (code : Z).

(** How [main()] ends: it returns an integer, [SystemExit] leaves it, or an
    exception leaves it. *)
Inductive termination : Type :=
  | Returned (code : Z)
  | SysExit (code : Z)
  | Uncaught (e : exn).

(** The exit status of [sys.exit(main())]. *)
Definition exit_status (t : termination) : Z :=
  match t with
  | Returned c => c
  | SysExit c => c
  | Uncaught _ => 1
  end.

(** [v == s] for a string literal [s]. *)
Definition py_eq_str (v : pyval) (s : string) : bool :=
  match v with
  | PStr s' => String.eqb s' s
  | _ => false
  end.

Section BlogPipeline.
Context {Ext : Type}.

(** [self.modules]: the stage objects by key, each given by the method
    [run] calls on it.  A key is missing when [_load_modules] failed
    before it was set. *)
Record Modules : Type := {
  mod_keyword : option (string -> BB Ext pyval);
  mod_content : option (pyval -> BB Ext pyval);
  mod_grammar : option (pyval -> BB Ext pyval);
  mod_visual : option (pyval -> BB Ext pyval);
  mod_publish : option (pyval -> pyval -> BB Ext pyval);
  mod_monetize : option (pyval -> pyval -> BB Ext pyval);
  mod_social : option (pyval -> pyval -> BB Ext pyval);
  mod_email : option (pyval -> pyval -> BB Ext pyval);
  mod_analytics : option (pyval -> BB Ext pyval)
}.

Record BlogPipeline : Type := {
  config : pyval;
  modules : Modules
}.

(** [self.modules[key]]. *)
Definition getitem {E A} (key : string) (entry : option A) : M Ext E A :=
  match entry with
  | Some m => mret m
  | None => raise (Exn "KeyError" ("'" +:+ key +:+ "'"))
  end.

Definition success_result (url social_posts email_draft : pyval) : pyval :=
  PDict [("status", PStr "success");
         ("url", url);
         ("social_posts", social_posts);
         ("email_draft", email_draft)].

Definition error_result (e : exn) : pyval :=
  PDict [("status", PStr "error");
         ("message", PStr (exn_msg e))].

(** [BlogPipeline.run]. *)
Definition run (self : BlogPipeline) (topic : string)
  : M Ext (call stage) pyval :=
  log INFO "Starting pipeline for topic: {}" [PStr topic];;
  try_except
    (m ← getitem "keyword" (mod_keyword (modules self));
     keywords ← invoke Keyword (m topic);
     log INFO "Keywords discovered: {}" [keywords];;
     m ← getitem "content" (mod_content (modules self));
     content ← invoke Content (m keywords);
     log INFO "Content created successfully" [];;
     m ← getitem "grammar" (mod_grammar (modules self));
     content ← invoke Grammar (m content);
     log INFO "Grammar and style check completed" [];;
     m ← getitem "visual" (mod_visual (modules self));
     images ← invoke Visual (m content);
     n ← lift_outcome (py_len images);
     log INFO "Generated {} images" [PInt n];;
     m ← getitem "publish" (mod_publish (modules self));
     url ← invoke Publish (m content images);
     log INFO "Published to: {}" [url];;
     m ← getitem "monetize" (mod_monetize (modules self));
     monetized_content ← invoke Monetize (m content url);
     log INFO "Monetization applied" [];;
     m ← getitem "social" (mod_social (modules self));
     social_posts ← invoke Social (m url content);
     n ← lift_outcome (py_len social_posts);
     log INFO "Created {} social media posts" [PInt n];;
     m ← getitem "email" (mod_email (modules self));
     email_draft ← invoke Email (m url content);
     log INFO "Email newsletter draft created" [];;
     m ← getitem "analytics" (mod_analytics (modules self));
     _ ← invoke Analytics (m url);
     log INFO "Analytics tracking configured" [];;
     mret (success_result url social_posts email_draft))
    (fun e =>
       log ERROR "Pipeline failed: {}" [PStr (exn_msg e)];;
       mret (error_result e)).

(** [discover] as the keyword stage of a pipeline: the calls it makes to
    its providers are not calls of stages. *)
Definition keyword_stage (kd : KeywordDiscovery Ext) (topic : string)
  : BB Ext pyval :=
  fun w => let '(o, w1, _) := discover kd topic w in (o, w1).

Section Main.
(** [argparse] and the constructor [BlogPipeline(config_path)], which
    catches what loading the configuration and the modules raises and
    so always returns an object. *)
Variable parse_args : list string -> World Ext -> parse_result * World Ext.
Variable BlogPipeline_init : string -> World Ext -> BlogPipeline * World Ext.

(** [main], on the command line [argv]. *)
Definition main (argv : list string) (w : World Ext)
  : termination * World Ext * list (call stage) :=
  match parse_args argv w with
  | (ParserExit c, w1) => (SysExit c, w1, [])
  | (Parsed topic config_path, w1) =>
      let '(pipeline, w2) := BlogPipeline_init config_path w1 in
      match (result ← run pipeline topic;
             print_json result;;
             status ← lift_outcome (py_getitem result "status");
             mret (if py_eq_str status "success" then 0 else 1)) w2 with
      | (Ok c, w3, t) => (Returned c, w3, t)
      | (Raise e, w3, t) => (Uncaught e, w3, t)
      end
  end.
End Main.
End BlogPipeline.

Arguments Modules : clear implicits.
Arguments BlogPipeline : clear implicits.

(** ** Vocabulary of the statements *)

(** A provider call that did not produce a result: it raised, or it returned
    a value that [if not result] takes for no result. *)
Definition failed (o : outcome pyval) : bool :=
  match o with
  | Raise _ => true
  | Ok v => negb (py_truthy v)
  end.

(** A [KeywordResult]: a mapping with the five fields every provider sets. *)
Definition keyword_result (v : pyval) : bool :=
  match v with
  | PDict d =>
      forallb (fun k => bool_decide (is_Some (dict_get k d)))
        ["primary_keyword"; "related_queries"; "top_urls"; "metrics"; "source"]
  | _ => false
  end.

Definition returned (o : outcome pyval) : bool :=
  match o with
  | Raise _ => false
  | Ok _ => true
  end.

(** The order in which [discover] goes through its data sources. *)
Definition source_order : list source :=
  [SerpAPI; KeywordSurfer; GoogleTrends; Fallback].

Definition source_index (s : source) : nat :=
  match s with
  | SerpAPI => 0
  | KeywordSurfer => 1
  | GoogleTrends => 2
  | Fallback => 3
  end.

Definition stage_index (s : stage) : nat :=
  match s with
  | Keyword => 0 | Content => 1 | Grammar => 2 | Visual => 3 | Publish => 4
  | Monetize => 5 | Social => 6 | Email => 7 | Analytics => 8
  end.


(** No file or directory at the path of the topic's cache entry. *)
Definition cache_miss {Ext} (self : KeywordDiscovery Ext) (topic : string)
    (w : World Ext) : Prop :=
  fs_nodes (w_fs w) !! cache_file self topic = None.

(** [q] contains [topic] as a substring. *)
Definition contains (topic q : string) : Prop :=
  exists pre post, q = pre +:+ topic +:+ post.

(** ** Worlds and objects of the examples *)

(** [p] names an entry of the directory [dir] itself. *)
Definition directly_inside (dir p : string) : bool :=
  String.prefix (dir +:+ "/") p &&
  negb (existsb (Ascii.eqb "/")
          (list_ascii_of_string
             (String.substring (S (String.length dir)) (String.length p) p))).

(** A file system that has the nodes [nodes] and lets files be written in
    the directory [cache/keywords] only: anywhere else the parent directory
    is missing. *)
Definition cache_fs (nodes : gmap string fnode) : filesystem :=
  Filesystem nodes
    (fun p => if directly_inside "cache/keywords" p then None
              else Some (file_not_found p)).

Definition example_world (nodes : gmap string fnode) : World unit :=
  MkWorld (cache_fs nodes) "2025-06-01T09:30:00.000000" [] [] tt.

(** The cache directory exists and is empty. *)
Definition empty_cache : World unit :=
  example_world {[ "cache/keywords" := Dir ]}.

Definition seo_document : json :=
  JObj [("primary_keyword", JStr "seo");
        ("related_queries", JArr [JStr "seo guide"; JStr "advanced seo"]);
        ("top_urls", JArr []);
        ("metrics", JObj [("search_volume", JInt 980)]);
        ("source", JStr "keywordsurfer_simulation")].

(** The cache holds an entry for the topic "seo". *)
Definition seo_cached : World unit :=
  example_world
    (<["cache/keywords/seo.json" := File (Json seo_document)]>
       {[ "cache/keywords" := Dir ]}).

(** The cache file of "seo" is empty, as an interrupted write leaves it. *)
Definition seo_corrupt : World unit :=
  example_world
    (<["cache/keywords/seo.json" :=
         File (Unparsable
                 (Exn "JSONDecodeError"
                      "Expecting value: line 1 column 1 (char 0)"))]>
       {[ "cache/keywords" := Dir ]}).

Definition provider_down (topic : string) : BB unit pyval :=
  fun w => (Raise (Exn "ConnectionError" "service unavailable"), w).

Definition provider_empty (topic : string) : BB unit pyval :=
  fun w => (Ok (PDict []), w).

(** The class as written. *)
Definition kd : KeywordDiscovery unit :=
  KeywordDiscovery_class "cache/keywords".



(** No provider works. *)
Definition kd_all_down : KeywordDiscovery unit :=
  {| cache_dir := "cache/keywords";
     try_serpapi := provider_down;
     try_keywordsurfer := provider_empty;
     try_google_trends := provider_down |}.

(** Stage modules that return fixed values, and the same with a grammar
    checker that raises. *)
Definition stub_modules (check : pyval -> BB unit pyval) : Modules unit :=
  {| mod_keyword := Some (keyword_stage kd);
     mod_content := Some (fun _ w => (Ok (PStr "draft"), w));
     mod_grammar := Some check;
     mod_visual := Some (fun _ w => (Ok (PList [PStr "cover.png"]), w));
     mod_publish :=
       Some (fun _ _ w => (Ok (PStr "https://blog.example.com/remote-work"), w));
     mod_monetize := Some (fun _ _ w => (Ok (PStr "draft with ads"), w));
     mod_social :=
       Some (fun _ _ w => (Ok (PList [PStr "post 1"; PStr "post 2"]), w));
     mod_email := Some (fun _ _ w => (Ok (PStr "newsletter"), w));
     mod_analytics := Some (fun _ w => (Ok PNone, w)) |}.

Definition stub_pipeline : BlogPipeline unit :=
  {| config := PDict [];
     modules := stub_modules (fun _ w => (Ok (PStr "checked draft"), w)) |}.

Definition broken_grammar_pipeline : BlogPipeline unit :=
  {| config := PDict [];
     modules :=
       stub_modules
         (fun _ w => (Raise (Exn "RuntimeError" "grammar service timeout"), w)) |}.

(** A publisher that returns its URL as an object of a class of its own. *)
Definition url_object_pipeline : BlogPipeline unit :=
  {| config := PDict [];
     modules :=
       {| mod_keyword := Some (keyword_stage kd);
          mod_content := Some (fun _ w => (Ok (PStr "draft"), w));
          mod_grammar := Some (fun _ w => (Ok (PStr "checked draft"), w));
          mod_visual := Some (fun _ w => (Ok (PList [PStr "cover.png"]), w));
          mod_publish := Some (fun _ _ w => (Ok (PObject "Url" true), w));
          mod_monetize := Some (fun _ _ w => (Ok (PStr "draft with ads"), w));
          mod_social := Some (fun _ _ w => (Ok (PList [PStr "post 1"]), w));
          mod_email := Some (fun _ _ w => (Ok (PStr "newsletter"), w));
          mod_analytics := Some (fun _ w => (Ok PNone, w)) |} |}.

(** A command line of one word is the topic; anything else is a usage
    error. *)
Definition stub_parse_args (argv : list string) (w : World unit)
  : parse_result * World unit :=
  match argv with
  | [topic] => (Parsed topic "config.yaml", w)
  | _ => (ParserExit 2, w)
  end.

Definition stub_init (p : BlogPipeline unit) (config_path : string)
    (w : World unit) : BlogPipeline unit * World unit :=
  (p, w).

(** ** Construction of the objects *)

(** [v.get(k, default)]: defined on mappings; the other values of the model
    (an instance of another class among them) have no attribute [get]. *)
Definition py_get (v : pyval) (k : string) (default : pyval) : outcome pyval :=
  match v with
  | PDict d =>
      Ok (match dict_get k d with Some x => x | None => default end)
  | _ => Raise (Exn "AttributeError"
                  ("'" +:+ py_type_name v +:+ "' object has no attribute 'get'"))
  end.

(** A value given to [os] as a path: a string, [TypeError] otherwise. *)
Definition fspath (v : pyval) : outcome string :=
  match v with
  | PStr s => Ok s
  | _ => Raise (Exn "TypeError"
                  ("expected str, bytes or os.PathLike object, not "
                   +:+ py_type_name v))
  end.

Section Construction.
Context {Ext : Type}.

(** What the constructors rely on and this repository does not define: the
    two library calls [os.makedirs(path, exist_ok=True)] and
    [with open(path, 'r') as file: yaml.safe_load(file)], the nine imports
    of [_load_modules], and the constructors of the eight other stage
    classes, each giving the method [run] calls on the object. *)
Record Collaborators : Type := {
  makedirs : string -> BB Ext unit;
  load_yaml : string -> BB Ext pyval;
  import_modules : BB Ext unit;
  ContentCreation : pyval -> BB Ext (pyval -> BB Ext pyval);
  GrammarStyleChecker : pyval -> BB Ext (pyval -> BB Ext pyval);
  VisualGenerator : pyval -> BB Ext (pyval -> BB Ext pyval);
  Publisher : pyval -> BB Ext (pyval -> pyval -> BB Ext pyval);
  MonetizationManager : pyval -> BB Ext (pyval -> pyval -> BB Ext pyval);
  SocialPromotion : pyval -> BB Ext (pyval -> pyval -> BB Ext pyval);
  EmailDrafter : pyval -> BB Ext (pyval -> pyval -> BB Ext pyval);
  AnalyticsTracker : pyval -> BB Ext (pyval -> BB Ext pyval)
}.

(** A call of a collaborator that is not recorded. *)
Definition call_bb {E A} (f : BB Ext A) : M Ext E A :=
  fun w => let '(o, w1) := f w in (o, w1, []).

(** [KeywordDiscovery.__init__].  No method reads [self.config] again, so
    the object keeps the cache directory only. *)
Definition KeywordDiscovery__init__ {E} (env : Collaborators) (config : pyval)
  : M Ext E (KeywordDiscovery Ext) :=
  let config := if py_truthy config then config else PDict [] in
  cache_dir ← lift_outcome (py_get config "cache_dir" (PStr "cache/keywords"));
  path ← lift_outcome (fspath cache_dir);
  call_bb (makedirs env path);;
  mret (KeywordDiscovery_class path).

(** [BlogPipeline._load_config]. *)
Definition _load_config {E} (env : Collaborators) (config_path : string)
  : M Ext E pyval :=
  try_except (call_bb (load_yaml env config_path))
    (fun e =>
       log ERROR "Failed to load config: {}" [PStr (exn_msg e)];;
       mret (PDict [])).

(** [self.modules = {}]. *)
Definition no_modules : Modules Ext :=
  {| mod_keyword := None; mod_content := None; mod_grammar := None;
     mod_visual := None; mod_publish := None; mod_monetize := None;
     mod_social := None; mod_email := None; mod_analytics := None |}.

(** [self.modules[key] = m], for each key. *)
Definition set_keyword (m : string -> BB Ext pyval) (ms : Modules Ext) :=
  {| mod_keyword := Some m; mod_content := mod_content ms;
     mod_grammar := mod_grammar ms; mod_visual := mod_visual ms;
     mod_publish := mod_publish ms; mod_monetize := mod_monetize ms;
     mod_social := mod_social ms; mod_email := mod_email ms;
     mod_analytics := mod_analytics ms |}.

Definition set_content (m : pyval -> BB Ext pyval) (ms : Modules Ext) :=
  {| mod_keyword := mod_keyword ms; mod_content := Some m;
     mod_grammar := mod_grammar ms; mod_visual := mod_visual ms;
     mod_publish := mod_publish ms; mod_monetize := mod_monetize ms;
     mod_social := mod_social ms; mod_email := mod_email ms;
     mod_analytics := mod_analytics ms |}.

Definition set_grammar (m : pyval -> BB Ext pyval) (ms : Modules Ext) :=
  {| mod_keyword := mod_keyword ms; mod_content := mod_content ms;
     mod_grammar := Some m; mod_visual := mod_visual ms;
     mod_publish := mod_publish ms; mod_monetize := mod_monetize ms;
     mod_social := mod_social ms; mod_email := mod_email ms;
     mod_analytics := mod_analytics ms |}.

Definition set_visual (m : pyval -> BB Ext pyval) (ms : Modules Ext) :=
  {| mod_keyword := mod_keyword ms; mod_content := mod_content ms;
     mod_grammar := mod_grammar ms; mod_visual := Some m;
     mod_publish := mod_publish ms; mod_monetize := mod_monetize ms;
     mod_social := mod_social ms; mod_email := mod_email ms;
     mod_analytics := mod_analytics ms |}.

Definition set_publish (m : pyval -> pyval -> BB Ext pyval) (ms : Modules Ext) :=
  {| mod_keyword := mod_keyword ms; mod_content := mod_content ms;
     mod_grammar := mod_grammar ms; mod_visual := mod_visual ms;
     mod_publish := Some m; mod_monetize := mod_monetize ms;
     mod_social := mod_social ms; mod_email := mod_email ms;
     mod_analytics := mod_analytics ms |}.

Definition set_monetize (m : pyval -> pyval -> BB Ext pyval) (ms : Modules Ext) :=
  {| mod_keyword := mod_keyword ms; mod_content := mod_content ms;
     mod_grammar := mod_grammar ms; mod_visual := mod_visual ms;
     mod_publish := mod_publish ms; mod_monetize := Some m;
     mod_social := mod_social ms; mod_email := mod_email ms;
     mod_analytics := mod_analytics ms |}.

Definition set_social (m : pyval -> pyval -> BB Ext pyval) (ms : Modules Ext) :=
  {| mod_keyword := mod_keyword ms; mod_content := mod_content ms;
     mod_grammar := mod_grammar ms; mod_visual := mod_visual ms;
     mod_publish := mod_publish ms; mod_monetize := mod_monetize ms;
     mod_social := Some m; mod_email := mod_email ms;
     mod_analytics := mod_analytics ms |}.

Definition set_email (m : pyval -> pyval -> BB Ext pyval) (ms : Modules Ext) :=
  {| mod_keyword := mod_keyword ms; mod_content := mod_content ms;
     mod_grammar := mod_grammar ms; mod_visual := mod_visual ms;
     mod_publish := mod_publish ms; mod_monetize := mod_monetize ms;
     mod_social := mod_social ms; mod_email := Some m;
     mod_analytics := mod_analytics ms |}.

Definition set_analytics (m : pyval -> BB Ext pyval) (ms : Modules Ext) :=
  {| mod_keyword := mod_keyword ms; mod_content := mod_content ms;
     mod_grammar := mod_grammar ms; mod_visual := mod_visual ms;
     mod_publish := mod_publish ms; mod_monetize := mod_monetize ms;
     mod_social := mod_social ms; mod_email := mod_email ms;
     mod_analytics := Some m |}.

(** Code that fills [self.modules]: the registry is part of the state, so
    that what was set before an exception stays set. *)
Definition L (A : Type) : Type :=
  Modules Ext -> World Ext -> outcome A * Modules Ext * World Ext.

#[global] Instance L_ret : MRet L := fun A a ms w => (Ok a, ms, w).

#[global] Instance L_bind : MBind L := fun A B f m ms w =>
  match m ms w with
  | (Ok a, ms1, w1) => f a ms1 w1
  | (Raise e, ms1, w1) => (Raise e, ms1, w1)
  end.

Definition L_try {A} (m : L A) (h : exn -> L A) : L A :=
  fun ms w =>
    match m ms w with
    | (Ok a, ms1, w1) => (Ok a, ms1, w1)
    | (Raise e, ms1, w1) => h e ms1 w1
    end.

Definition L_call {A} (f : BB Ext A) : L A :=
  fun ms w => let '(o, w1) := f w in (o, ms, w1).

Definition L_run {A} (m : M Ext Empty_set A) : L A :=
  fun ms w => let '(o, w1, _) := m w in (o, ms, w1).

Definition L_outcome {A} (o : outcome A) : L A := fun ms w => (o, ms, w).

Definition L_log (l : level) (text : string) (args : list pyval) : L unit :=
  fun ms w => (Ok tt, ms, add_log l text args w).

Definition L_set (f : Modules Ext -> Modules Ext) : L unit :=
  fun ms w => (Ok tt, f ms, w).

(** [BlogPipeline._load_modules], with [self.config] given. *)
Definition _load_modules (env : Collaborators) (config : pyval) : L unit :=
  L_try
    (L_call (import_modules env);;
     c ← L_outcome (py_get config "keyword_discovery" (PDict []));
     m ← L_run (KeywordDiscovery__init__ env c);
     L_set (set_keyword (keyword_stage m));;
     c ← L_outcome (py_get config "content_creation" (PDict []));
     m ← L_call (ContentCreation env c);
     L_set (set_content m);;
     c ← L_outcome (py_get config "grammar_check" (PDict []));
     m ← L_call (GrammarStyleChecker env c);
     L_set (set_grammar m);;
     c ← L_outcome (py_get config "visual_generator" (PDict []));
     m ← L_call (VisualGenerator env c);
     L_set (set_visual m);;
     c ← L_outcome (py_get config "publisher" (PDict []));
     m ← L_call (Publisher env c);
     L_set (set_publish m);;
     c ← L_outcome (py_get config "monetization" (PDict []));
     m ← L_call (MonetizationManager env c);
     L_set (set_monetize m);;
     c ← L_outcome (py_get config "social_promotion" (PDict []));
     m ← L_call (SocialPromotion env c);
     L_set (set_social m);;
     c ← L_outcome (py_get config "email_drafter" (PDict []));
     m ← L_call (EmailDrafter env c);
     L_set (set_email m);;
     c ← L_outcome (py_get config "analytics" (PDict []));
     m ← L_call (AnalyticsTracker env c);
     L_set (set_analytics m);;
     L_log INFO "All modules loaded successfully" [])
    (fun e => L_log ERROR "Failed to load modules: {}" [PStr (exn_msg e)]).

(** [BlogPipeline.__init__]. *)
Definition BlogPipeline__init__ {E} (env : Collaborators) (config_path : string)
  : M Ext E (BlogPipeline Ext) :=
  config ← _load_config env config_path;
  ((fun w =>
      let '(o, ms, w1) := _load_modules env config no_modules w in
      (outcome_map (fun _ => {| config := config; modules := ms |}) o, w1, []))
   : M Ext E (BlogPipeline Ext)).

(** The constructor as [main] uses it. *)
Definition construct (env : Collaborators) (config_path : string)
    (w : World Ext) : BlogPipeline Ext * World Ext :=
  match BlogPipeline__init__ (E := Empty_set) env config_path w with
  | (Ok p, w1, _) => (p, w1)
  | (Raise _, w1, _) => ({| config := PNone; modules := no_modules |}, w1)
  end.
End Construction.

Arguments Collaborators : clear implicits.

(** The keys of [self.modules] that are set, in the order of the stages. *)
Definition loaded {Ext} (ms : Modules Ext) : list bool :=
  [bool_decide (is_Some (mod_keyword ms));
   bool_decide (is_Some (mod_content ms));
   bool_decide (is_Some (mod_grammar ms));
   bool_decide (is_Some (mod_visual ms));
   bool_decide (is_Some (mod_publish ms));
   bool_decide (is_Some (mod_monetize ms));
   bool_decide (is_Some (mod_social ms));
   bool_decide (is_Some (mod_email ms));
   bool_decide (is_Some (mod_analytics ms))].

Definition is_mapping (v : pyval) : bool :=
  match v with PDict _ => true | _ => false end.

Definition has_space (s : string) : bool :=
  existsb (Ascii.eqb " ") (list_ascii_of_string s).

(** Case analysis on the missing modules and on what the stages and [len]
    do, along [run]. *)
Ltac stage_cases :=
  repeat (simpl; match goal with
    | |- context [match ?X with _ => _ end] =>
        lazymatch type of X with
        | (outcome pyval * World _)%type => destruct X as [[? | ?] ?] eqn:?
        | option _ => destruct X eqn:?
        | outcome Z => destruct X eqn:?
        end
    end);
  simpl.

(** Unfolding of the code that fills the registry, and case analysis on
    what the imports, the constructors and the lookups in the
    configuration do. *)
Ltac unfold_l :=
  unfold L_try, L_call, L_run, L_outcome, L_log, L_set, call_bb,
    mbind, mret, L_bind, L_ret in *.

Ltac loading_cases :=
  repeat (cbn -[py_get]; match goal with
    | |- context [match ?X with _ => _ end] =>
        lazymatch X with
        | context [match _ with _ => _ end] => fail
        | _ =>
            lazymatch type of X with
            | (_ * _)%type => destruct X as [? ?] eqn:?
            | outcome _ => destruct X as [? | ?] eqn:?
            | unit => destruct X
            end
        end
    end);
  cbn -[py_get].

(** Collaborators of the examples: [os.makedirs] makes the directory unless
    the path is absolute, the imports succeed, and the stage classes are the
    stubs of [stub_modules], except that the publisher asks for an
    "api_url" in its configuration. *)
Definition stub_makedirs (path : string) : BB unit unit := fun w =>
  if String.prefix "/" path
  then (Raise (Exn "PermissionError"
                 ("[Errno 13] Permission denied: '" +:+ path +:+ "'")), w)
  else (Ok tt,
        MkWorld (Filesystem (<[path := Dir]> (fs_nodes (w_fs w)))
                            (fs_wdeny (w_fs w)))
                (w_now w) (w_log w) (w_stdout w) (w_ext w)).

Definition stub_Publisher (config : pyval)
  : BB unit (pyval -> pyval -> BB unit pyval) := fun w =>
  match py_get config "api_url" PNone with
  | Ok (PStr _) =>
      (Ok (fun _ _ w => (Ok (PStr "https://blog.example.com/remote-work"), w)),
       w)
  | _ => (Raise (Exn "ValueError" "publisher: no api_url configured"), w)
  end.

Definition stub_env (load_yaml : string -> BB unit pyval)
  : Collaborators unit :=
  {| makedirs := stub_makedirs;
     load_yaml := load_yaml;
     import_modules := fun w => (Ok tt, w);
     ContentCreation := fun _ w => (Ok (fun _ w => (Ok (PStr "draft"), w)), w);
     GrammarStyleChecker :=
       fun _ w => (Ok (fun _ w => (Ok (PStr "checked draft"), w)), w);
     VisualGenerator :=
       fun _ w => (Ok (fun _ w => (Ok (PList [PStr "cover.png"]), w)), w);
     Publisher := stub_Publisher;
     MonetizationManager :=
       fun _ w => (Ok (fun _ _ w => (Ok (PStr "draft with ads"), w)), w);
     SocialPromotion :=
       fun _ w => (Ok (fun _ _ w => (Ok (PList [PStr "post 1"]), w)), w);
     EmailDrafter :=
       fun _ w => (Ok (fun _ _ w => (Ok (PStr "newsletter"), w)), w);
     AnalyticsTracker := fun _ w => (Ok (fun _ w => (Ok PNone, w)), w) |}.


Definition yaml_missing (path : string) : BB unit pyval :=
  fun w => (Raise (file_not_found path), w).

(** A world without the cache directory. *)
Definition no_cache : World unit := example_world ∅.

(** A provider whose result holds an object of a class of its own. *)
Definition provider_object (topic : string) : BB unit pyval :=
  fun w => (Ok (PDict [("primary_keyword", PObject "Keyword" true)]), w).

Definition kd_object : KeywordDiscovery unit :=
  {| cache_dir := "cache/keywords";
     try_serpapi := provider_object;
     try_keywordsurfer := _try_keywordsurfer;
     try_google_trends := _try_google_trends |}.

(** A visual generator that returns [None] for its images. *)
Definition no_images_pipeline : BlogPipeline unit :=
  {| config := PDict [];
     modules :=
       set_visual (fun _ w => (Ok PNone, w))
         (stub_modules (fun _ w => (Ok (PStr "checked draft"), w))) |}.

(** Unfolding of the monad and of the primitive operations. *)
Ltac unfold_m :=
  unfold try_except, invoke, log, os_path_exists, json_load_file,
    raise, lift_outcome, getitem, mbind, mret, M_bind, M_ret in *.

(** Case analysis on what the three providers do, along [discover]. *)
Ltac provider_cases :=
  repeat (simpl; match goal with
    | H : py_truthy ?v = _ |- context [py_truthy ?v] => rewrite H
    | |- context [try_serpapi ?s ?t ?w0] =>
        destruct (try_serpapi s t w0) as [[? | ?] ?] eqn:?
    | |- context [try_keywordsurfer ?s ?t ?w0] =>
        destruct (try_keywordsurfer s t w0) as [[? | ?] ?] eqn:?
    | |- context [try_google_trends ?s ?t ?w0] =>
        destruct (try_google_trends s t w0) as [[? | ?] ?] eqn:?
    | |- context [py_truthy ?v] => is_var v; destruct (py_truthy v) eqn:?
    end);
  simpl.

(** * Properties *)

(** ** Values and documents *)

(** Induction on values, with the hypothesis for every element of a
    container. *)
Lemma pyval_induction (P : pyval -> Prop) :
  P PNone ->
  (forall b, P (PBool b)) ->
  (forall n, P (PInt n)) ->
  (forall x, P (PFloat x)) ->
  (forall s, P (PStr s)) ->
  (forall l, Forall P l -> P (PList l)) ->
  (forall l, Forall P l -> P (PTuple l)) ->
  (forall d, Forall (fun kv => P (snd kv)) d -> P (PDict d)) ->
  (forall c t, P (PObject c t)) ->
  forall v, P v.
Proof.
  intros HN HB HI HF HS HL HT HD HO.
  fix IH 1. intros [ | b | n | x | s | l | l | d | c t].
  - exact HN.
  - apply HB.
  - apply HI.
  - apply HF.
  - apply HS.
  - apply HL. induction l as [ | v l IHl]; constructor; [apply IH | exact IHl].
  - apply HT. induction l as [ | v l IHl]; constructor; [apply IH | exact IHl].
  - apply HD. induction d as [ | [k v] d IHd]; constructor; [apply IH | exact IHd].
  - apply HO.
Qed.

Lemma existsb_eqb_false (k : string) (l : list string) :
  existsb (String.eqb k) l = false -> ~ In k l.
Proof.
  induction l as [ | x l IH]; simpl; intros H; [tauto | ].
  apply orb_false_iff in H as [Hx Hl].
  intros [-> | Hin]; [ | exact (IH Hl Hin)].
  rewrite String.eqb_refl in Hx. discriminate.
Qed.

(** Assigning a key that is not there appends it. *)
Lemma dict_set_fresh (k : string) (v : pyval) (d : list (string * pyval)) :
  ~ In k (map fst d) -> dict_set k v d = d ++ [(k, v)].
Proof.
  induction d as [ | [k' v'] d IH]; simpl; intros Hk; [reflexivity | ].
  destruct (String.eqb_spec k k') as [-> | Hne]; [tauto | ].
  rewrite IH; [reflexivity | tauto].
Qed.

Lemma fold_dict_set_distinct (l acc : list (string * pyval)) :
  distinct (map fst l) = true ->
  (forall k, In k (map fst l) -> ~ In k (map fst acc)) ->
  fold_left (fun d kv => dict_set (fst kv) (snd kv) d) l acc = acc ++ l.
Proof.
  revert acc. induction l as [ | [k v] l IH]; simpl; intros acc Hd Hfresh.
  - symmetry. apply app_nil_r.
  - apply andb_true_iff in Hd as [Hk Hd].
    apply negb_true_iff, existsb_eqb_false in Hk.
    rewrite dict_set_fresh by (apply Hfresh; tauto).
    rewrite IH; [ | exact Hd | ].
    + rewrite <- app_assoc. reflexivity.
    + intros k' Hin. rewrite map_app, in_app_iff. simpl.
      intros [Hacc | [<- | []]]; [ | tauto].
      exact (Hfresh k' (or_intror Hin) Hacc).
Qed.

(** A dictionary literal with distinct keys is the dictionary itself. *)
Lemma dict_of_pairs_distinct (l : list (string * pyval)) :
  distinct (map fst l) = true -> dict_of_pairs l = l.
Proof.
  intros Hd. unfold dict_of_pairs.
  rewrite fold_dict_set_distinct; [reflexivity | exact Hd | ].
  intros k _ [].
Qed.

(** [json.load] after [json.dump] gives back a value of the JSON data
    model. *)
Lemma of_json_to_json (v : pyval) :
  json_exact v = true -> exists j, to_json v = Ok j /\ of_json j = v.
Proof.
  induction v as [ | b | n | x | s | l IH | l IH | d IH | c t]
    using pyval_induction;
    simpl; intros Hex; try discriminate; try (eexists; split; reflexivity).
  - assert (exists js, collect (map to_json l) = Ok js /\ map of_json js = l)
      as (js & Hjs & Hback).
    { induction l as [ | v l IHl]; simpl in *; [exists []; auto | ].
      apply andb_true_iff in Hex as [Hv Hl].
      inversion IH as [ | ? ? IHv IHrest]; subst.
      destruct (IHv Hv) as (j & -> & Hj).
      destruct (IHl IHrest Hl) as (js & -> & Hjs).
      exists (j :: js). simpl. rewrite Hj, Hjs. auto. }
    exists (JArr js). rewrite Hjs. simpl. rewrite Hback. auto.
  - apply andb_true_iff in Hex as [Hkeys Hvals].
    assert (exists ms,
      collect (map (fun '(k, x) => outcome_map (pair k) (to_json x)) d) = Ok ms
      /\ map (fun '(k, x) => (k, of_json x)) ms = d)
      as (ms & Hms & Hback).
    { clear Hkeys.
      induction d as [ | [k v] d IHd]; simpl in *; [exists []; auto | ].
      apply andb_true_iff in Hvals as [Hv Hd].
      inversion IH as [ | ? ? IHv IHrest]; subst. simpl in IHv.
      destruct (IHv Hv) as (j & -> & Hj).
      destruct (IHd IHrest Hd) as (ms & -> & Hms).
      exists ((k, j) :: ms). simpl. rewrite Hj, Hms. auto. }
    exists (JObj ms). rewrite Hms. simpl. rewrite Hback.
    rewrite dict_of_pairs_distinct by exact Hkeys. auto.
Qed.

Lemma str_app_nil_r (s : string) : s +:+ "" = s.
Proof.
  induction s as [ | c s IH]; [reflexivity | ].
  change (String c (s +:+ "") = String c s). rewrite IH. reflexivity.
Qed.

Lemma str_app_char (c : ascii) (s : string) : String c "" +:+ s = String c s.
Proof. reflexivity. Qed.

(** Replacing a character by a character keeps every position. *)
Lemma str_replace_char_length (old new : ascii) (s : string) :
  String.length (str_replace old (String new "") s) = String.length s.
Proof.
  induction s as [ | c s IH]; [reflexivity | ].
  cbn. destruct (Ascii.eqb c old); rewrite ?str_app_char; cbn; rewrite IH;
    reflexivity.
Qed.

Lemma str_replace_char_get (old new : ascii) (s : string) (i : nat) :
  String.get i (str_replace old (String new "") s) =
  (fun c => if Ascii.eqb c old then new else c) <$> String.get i s.
Proof.
  revert i. induction s as [ | c s IH]; intros i; [reflexivity | ].
  cbn. destruct (Ascii.eqb c old) eqn:Hc; rewrite ?str_app_char;
    destruct i as [ | i]; cbn; rewrite ?Hc, ?IH; reflexivity.
Qed.

(** ** The file system *)

Lemma open_w_error_store (p : string) (c : content) (fs : filesystem) :
  open_w_error fs p = None -> open_w_error (fs_store p c fs) p = None.
Proof.
  unfold open_w_error, fs_store.
  destruct (fs_nodes fs !! p) as [[ | [j | e | e]] | ] eqn:Hp; simpl;
    try discriminate; rewrite ?Hp, ?lookup_insert_eq; auto.
Qed.

(** Writing the cache entry: the outcome is the error of the write, read on
    the file system the write leaves. *)
Lemma json_dump_file_outcome {Ext E} (p : string) (v : pyval) (w w' : World Ext)
    (o : outcome unit) (t : list E) :
  json_dump_file p v w = (o, w', t) ->
  t = [] /\ w_now w' = w_now w /\
  o = match fs_dump_error (w_fs w') p v with
      | None => Ok tt
      | Some e => Raise e
      end.
Proof.
  unfold json_dump_file, fs_dump_error.
  destruct (open_w_error (w_fs w) p) as [e | ] eqn:Hopen.
  - intros [= <- <- <-]. rewrite Hopen. auto.
  - destruct (to_json v) as [j | e] eqn:Hj; intros [= <- <- <-]; simpl;
      rewrite open_w_error_store by exact Hopen; auto.
Qed.

(** After a successful write the file holds the document of the value,
    unless it is a file that cannot be read. *)
Lemma json_dump_file_stored {Ext E} (p : string) (v : pyval) (w w' : World Ext)
    (t : list E) :
  json_dump_file p v w = (Ok tt, w', t) ->
  exists j,
    to_json v = Ok j /\
    (fs_nodes (w_fs w') !! p = Some (File (Json j)) \/
     exists e, fs_nodes (w_fs w') !! p = Some (File (Unreadable e))).
Proof.
  unfold json_dump_file.
  destruct (open_w_error (w_fs w) p); [discriminate | ].
  destruct (to_json v) as [j | e]; [ | discriminate].
  intros [= <- <-]. exists j. split; [reflexivity | ].
  simpl. unfold fs_store.
  destruct (fs_nodes (w_fs w) !! p) as [[ | [j' | e | e]] | ] eqn:Hp; simpl;
    rewrite ?lookup_insert_eq; eauto.
Qed.

(** ** [discover] *)

Section DiscoverProps.
Context {Ext : Type}.
Implicit Types (self : KeywordDiscovery Ext) (w : World Ext).

(** With an entry at the cache path, [discover] is the read of that entry
    and nothing else. *)
Lemma discover_hit self topic w n :
  fs_nodes (w_fs w) !! cache_file self topic = Some n ->
  discover self topic w =
    (fs_load (w_fs w) (cache_file self topic),
     add_log INFO "Using cached keyword data for '{}'" [PStr topic] w,
     []).
Proof.
  intros Hn. unfold discover. unfold_m. simpl. rewrite Hn. simpl.
  destruct (fs_load _ _); reflexivity.
Qed.

(** Without an entry, the calls [discover] makes are the first sources of
    [source_order], every one but the last failed, the last one returned
    the result, and the outcome is that result unless writing it to the
    cache raises. *)
Lemma discover_miss_trace self topic w o w' tr :
  cache_miss self topic w ->
  discover self topic w = (o, w', tr) ->
  exists pre p r,
    tr = pre ++ [Called p (Ok r)] /\
    who <$> tr = take (S (source_index p)) source_order /\
    Forall (fun c => failed (how c) = true) pre /\
    py_truthy r = true /\
    (p = Fallback -> r = fallback_result topic (w_now w')) /\
    o = match fs_dump_error (w_fs w') (cache_file self topic) r with
        | None => Ok r
        | Some e => Raise e
        end.
Proof.
  unfold cache_miss, discover. intros Hmiss. unfold_m. simpl.
  rewrite Hmiss. simpl.
  provider_cases.
  all: match goal with
    | |- context [@json_dump_file ?X ?E ?p ?v ?w0] =>
        destruct (@json_dump_file X E p v w0) as [[od wd] td] eqn:Hd;
        apply json_dump_file_outcome in Hd as (-> & Hnow & ->)
    end.
  all: match goal with
    | |- context [fs_dump_error ?a ?b ?c] =>
        destruct (fs_dump_error a b c) eqn:Hfe
    end; simpl; intros [= <- <- <-].
  all: first
    [ exists []; do 2 eexists; split; [reflexivity | ]
    | eexists [_]; do 2 eexists; split; [reflexivity | ]
    | eexists [_; _]; do 2 eexists; split; [reflexivity | ]
    | eexists [_; _; _]; do 2 eexists; split; [reflexivity | ] ].
  all: rewrite Hfe, ?Hnow.
  all: repeat split; try discriminate; try reflexivity.
  all: repeat constructor; simpl; try reflexivity; try assumption.
  all: match goal with
    | H : py_truthy ?v = false |- negb (py_truthy ?v) = true =>
        rewrite H; reflexivity
    end.
Qed.

(** C4: when a cache entry exists for the topic (a readable file at the
    cache path that holds a JSON document), [discover] returns the value of
    that document as it is, source field included, calls no provider and
    no fallback generator, and changes nothing but the log. *)
Theorem discover_cache_hit self topic w j :
  fs_nodes (w_fs w) !! cache_file self topic = Some (File (Json j)) ->
  discover self topic w =
    (Ok (of_json j),
     add_log INFO "Using cached keyword data for '{}'" [PStr topic] w,
     []).
Proof.
  intros Hj. rewrite (discover_hit _ _ _ _ Hj).
  unfold fs_load. rewrite Hj. reflexivity.
Qed.

(** Without an entry, when [discover] returns, the cache file holds the
    document of what it returned (unless the file cannot be read). *)
Lemma discover_miss_stored self topic w r w' tr :
  cache_miss self topic w ->
  discover self topic w = (Ok r, w', tr) ->
  exists j,
    to_json r = Ok j /\
    (fs_nodes (w_fs w') !! cache_file self topic = Some (File (Json j)) \/
     exists e,
       fs_nodes (w_fs w') !! cache_file self topic = Some (File (Unreadable e))).
Proof.
  unfold cache_miss, discover. intros Hmiss. unfold_m. simpl.
  rewrite Hmiss. simpl.
  provider_cases.
  all: match goal with
    | |- context [@json_dump_file ?X ?E ?p ?v ?w0] =>
        destruct (@json_dump_file X E p v w0) as [[[[] | ?] wd] td] eqn:Hd
    end; simpl; intros [= <- <- <-];
    exact (json_dump_file_stored _ _ _ _ _ Hd).
Qed.

(** The second of two calls returns what the first one returned, for any
    providers, when that value belongs to the JSON data model and the cache
    file can be read. *)
Lemma discover_twice_any self topic w r w1 t1 :
  cache_miss self topic w ->
  discover self topic w = (Ok r, w1, t1) ->
  json_exact r = true ->
  (forall e,
     fs_nodes (w_fs w1) !! cache_file self topic <> Some (File (Unreadable e))) ->
  discover self topic w1 =
    (Ok r, add_log INFO "Using cached keyword data for '{}'" [PStr topic] w1, []).
Proof.
  intros Hmiss Hrun Hexact Hread.
  destruct (discover_miss_stored _ _ _ _ _ _ Hmiss Hrun)
    as (j & Hj & [Hnode | [e Hnode]]); [ | destruct (Hread e Hnode)].
  destruct (of_json_to_json r Hexact) as (j' & Hj' & Hback).
  rewrite Hj in Hj'. injection Hj' as <-.
  rewrite (discover_hit _ _ _ _ Hnode). unfold fs_load. rewrite Hnode, Hback.
  reflexivity.
Qed.

(** What [discover] raises is a cache failure: what providers raise stays
    inside. *)
Lemma discover_raises_cache_failure self topic w e w' tr :
  discover self topic w = (Raise e, w', tr) ->
  (is_Some (fs_nodes (w_fs w) !! cache_file self topic) /\
   fs_load (w_fs w) (cache_file self topic) = Raise e) \/
  (cache_miss self topic w /\
   exists r, fs_dump_error (w_fs w') (cache_file self topic) r = Some e).
Proof.
  intros Hrun.
  destruct (fs_nodes (w_fs w) !! cache_file self topic) as [n | ] eqn:Hn.
  - left. rewrite (discover_hit _ _ _ _ Hn) in Hrun.
    injection Hrun as -> _ _. eauto.
  - right. split; [exact Hn | ].
    destruct (discover_miss_trace _ _ _ _ _ _ Hn Hrun)
      as (pre & p & r & _ & _ & _ & _ & _ & Ho).
    exists r. destruct (fs_dump_error _ _ _); congruence.
Qed.

(** C1, as the code has it: a cache I/O failure is propagated.  When
    something exists at the cache path and reading it raises [e],
    [discover] raises [e] and calls no provider; when nothing exists there
    and writing the result raises [e], [discover] raises [e] instead of
    returning the result. *)
Theorem discover_cache_failure_propagates self topic w o w' tr e :
  discover self topic w = (o, w', tr) ->
  (is_Some (fs_nodes (w_fs w) !! cache_file self topic) ->
   fs_load (w_fs w) (cache_file self topic) = Raise e ->
   o = Raise e /\ tr = []) /\
  (cache_miss self topic w ->
   forall c r, last tr = Some c -> how c = Ok r ->
     fs_dump_error (w_fs w') (cache_file self topic) r = Some e ->
     o = Raise e).
Proof.
  intros Hrun. split.
  - intros [n Hn] Hload. rewrite (discover_hit _ _ _ _ Hn) in Hrun.
    injection Hrun as <- <- <-. auto.
  - intros Hmiss c r Hlast Hc Hdump.
    destruct (discover_miss_trace _ _ _ _ _ _ Hmiss Hrun)
      as (pre & p & r' & -> & _ & _ & _ & _ & ->).
    rewrite last_snoc in Hlast. injection Hlast as <-.
    simpl in Hc. injection Hc as ->. rewrite Hdump. reflexivity.
Qed.

(** A provider that returns a [KeywordResult] did not fail. *)
Lemma keyword_result_not_failed (v : pyval) :
  keyword_result v = true -> failed (Ok v) = false.
Proof.
  destruct v as [ | | | | | | | [ | kv d] | ]; try discriminate.
  reflexivity.
Qed.



(** C3, as the code has it: without a cache entry, when every provider
    fails, [discover] goes through the three providers, calls the fallback
    generator and returns its result, unless opening the cache file for
    writing raises, in which case it raises that error.  The result of the
    generator has source "fallback_method", no top URL, the three metrics
    "unknown", the clock reading as [generated_at], and ten related queries
    that each contain the topic. *)
Theorem discover_total_fallback self topic w o w' tr :
  cache_miss self topic w ->
  discover self topic w = (o, w', tr) ->
  (forall c, c ∈ tr -> is_provider (who c) = true -> failed (how c) = true) ->
  let r := fallback_result topic (w_now w') in
  who <$> tr = source_order /\
  last tr = Some (Called Fallback (Ok r)) /\
  o = match open_w_error (w_fs w') (cache_file self topic) with
      | None => Ok r
      | Some e => Raise e
      end /\
  py_getitem r "source" = Ok (PStr "fallback_method") /\
  py_getitem r "top_urls" = Ok (PList []) /\
  py_getitem r "metrics" =
    Ok (PDict [("search_volume", PStr "unknown");
               ("cpc", PStr "unknown");
               ("competition", PStr "unknown")]) /\
  py_getitem r "generated_at" = Ok (PStr (w_now w')) /\
  exists qs,
    py_getitem r "related_queries" = Ok (PList (PStr <$> qs)) /\
    length qs = 10%nat /\
    Forall (contains topic) qs.
Proof.
  intros Hmiss Hrun Hfail r.
  destruct (discover_miss_trace _ _ _ _ _ _ Hmiss Hrun)
    as (pre & p & r0 & -> & Hwho & Hpre & Hr & Hfb & ->).
  assert (p = Fallback) as ->.
  { destruct (is_provider p) eqn:Hp; [ | destruct p; [discriminate.. | reflexivity]].
    assert (failed (Ok r0) = true) as Hf.
    { apply (Hfail (Called p (Ok r0))); [ | exact Hp].
      apply elem_of_app. right. apply list_elem_of_singleton. reflexivity. }
    simpl in Hf. rewrite Hr in Hf. discriminate. }
  specialize (Hfb eq_refl). subst r0. fold r.
  split; [exact Hwho | ]. split; [apply last_snoc | ].
  split.
  { unfold fs_dump_error. destruct (open_w_error _ _); reflexivity. }
  repeat (split; [reflexivity | ]).
  eexists [_; _; _; _; _; _; _; _; _; _].
  split; [reflexivity | ]. split; [reflexivity | ].
  repeat constructor.
  - exists "", " guide". reflexivity.
  - exists "how to ", "". rewrite str_app_nil_r. reflexivity.
  - exists "best ", " practices". reflexivity.
  - exists "", " examples". reflexivity.
  - exists "", " tutorial". reflexivity.
  - exists "", " for beginners". reflexivity.
  - exists "advanced ", "". rewrite str_app_nil_r. reflexivity.
  - exists "", " tips". reflexivity.
  - exists "", " 2025". reflexivity.
  - exists "", " tools". reflexivity.
Qed.

(** C6, as the code has it: starting without a cache entry, for a topic
    whose cache file can be written, a first call of [discover] returns a
    result and a second call returns the same result and calls no
    provider. *)
Theorem discover_twice dir topic w :
  let self := KeywordDiscovery_class (Ext := Ext) dir in
  cache_miss self topic w ->
  fs_wdeny (w_fs w) (cache_file self topic) = None ->
  exists r w1 t1,
    discover self topic w = (Ok r, w1, t1) /\
    discover self topic w1 =
      (Ok r,
       add_log INFO "Using cached keyword data for '{}'" [PStr topic] w1,
       []).
Proof.
  intros self Hmiss Hw. unfold cache_miss in Hmiss.
  do 3 eexists. split.
  - unfold discover. unfold_m. simpl. rewrite Hmiss. simpl.
    unfold json_dump_file, open_w_error. simpl. rewrite Hmiss, Hw.
    reflexivity.
  - erewrite discover_hit.
    2: { simpl. unfold fs_store. rewrite Hmiss. simpl.
         apply lookup_insert_eq. }
    unfold fs_load. simpl. unfold fs_store. rewrite Hmiss. simpl.
    rewrite lookup_insert_eq. reflexivity.
Qed.

(** C8: the cache key of a topic is the topic with every space replaced by
    an underscore, position by position, so nothing is collapsed; the keys
    and the cache files of "machine learning" and "machine  learning" (two
    spaces) differ. *)
Theorem cache_key_keeps_spaces_apart :
  (forall topic,
     String.length (cache_key topic) = String.length topic /\
     forall i, String.get i (cache_key topic) =
               (fun c => if Ascii.eqb c " " then "_"%char else c)
                 <$> String.get i topic) /\
  cache_key "machine learning" = "machine_learning" /\
  cache_key "machine  learning" = "machine__learning" /\
  forall self : KeywordDiscovery Ext,
    cache_file self "machine learning" <> cache_file self "machine  learning".
Proof.
  split; [ | split; [reflexivity | split; [reflexivity | ]]].
  - intros topic. split.
    + apply str_replace_char_length.
    + intros i. apply str_replace_char_get.
  - intros self. unfold cache_file, os_path_join.
    change (cache_key "machine learning" +:+ ".json")
      with "machine_learning.json".
    change (cache_key "machine  learning" +:+ ".json")
      with "machine__learning.json".
    cbn [String.prefix]. simpl.
    destruct (_ || _); intros H; apply (inj _) in H; discriminate.
Qed.
End DiscoverProps.

(** ** [run] and [main] *)

Section PipelineProps.
Context {Ext : Type}.
Implicit Types (self : BlogPipeline Ext) (w : World Ext).

(** [run] always returns.  The stages it called are the first stages of
    [stage_order]; either the last one raised and the result is the error
    record of what it raised, or all returned and something else raised (a
    missing module, [len] of a result), or all nine returned and the
    result is the success record. *)
Lemma run_trace self topic w o w' tr :
  run self topic w = (o, w', tr) ->
  who <$> tr = take (length tr) stage_order /\
  ((exists pre s e,
      tr = pre ++ [Called s (Raise e)] /\
      who <$> tr = take (S (stage_index s)) stage_order /\
      Forall (fun c => returned (how c) = true) pre /\
      o = Ok (error_result e))
   \/ (Forall (fun c => returned (how c) = true) tr /\
       (length tr < 9)%nat /\
       exists e, o = Ok (error_result e))
   \/ (exists keywords content content' images url monetized social_posts
              email_draft none,
         tr = [Called Keyword (Ok keywords); Called Content (Ok content);
               Called Grammar (Ok content'); Called Visual (Ok images);
               Called Publish (Ok url); Called Monetize (Ok monetized);
               Called Social (Ok social_posts); Called Email (Ok email_draft);
               Called Analytics (Ok none)] /\
         o = Ok (success_result url social_posts email_draft))).
Proof.
  unfold run. unfold_m.
  repeat (simpl; match goal with
    | |- context [match ?X with _ => _ end] =>
        lazymatch type of X with
        | (outcome pyval * World _)%type => destruct X as [[? | ?] ?] eqn:?
        | option _ => destruct X eqn:?
        | outcome Z => destruct X eqn:?
        end
    end).
  all: simpl; intros [= <- <- <-]; (split; [reflexivity | ]).
  all: first
    [ solve [right; right; repeat eexists]
    | solve [right; left; split; [repeat constructor |
               split; [simpl; lia | eexists; reflexivity]]]
    | left;
      (exists [] + eexists [_] + eexists [_; _] + eexists [_; _; _]
       + eexists [_; _; _; _] + eexists [_; _; _; _; _]
       + eexists [_; _; _; _; _; _] + eexists [_; _; _; _; _; _; _]
       + eexists [_; _; _; _; _; _; _; _]);
      do 2 eexists; split; [reflexivity | ];
      split; [reflexivity | ]; split; [repeat constructor | reflexivity] ].
Qed.

(** C5: when a stage called by [run] raises [e], [run] does not raise: it
    returns the record with status "error" and the message of [e]; the
    stages called are the stages of the sequence up to the one that
    raised, which is the last call made. *)
Theorem run_stage_failure self topic w o w' tr s e :
  run self topic w = (o, w', tr) ->
  Called s (Raise e) ∈ tr ->
  o = Ok (PDict [("status", PStr "error"); ("message", PStr (exn_msg e))]) /\
  who <$> tr = take (S (stage_index s)) stage_order /\
  last tr = Some (Called s (Raise e)).
Proof.
  intros Hrun Hin.
  destruct (run_trace _ _ _ _ _ _ Hrun) as [_ [H | [H | H]]].
  - destruct H as (pre & s0 & e0 & -> & Hwho & Hpre & ->).
    apply elem_of_app in Hin as [Hin | Hin].
    + rewrite Forall_forall in Hpre. apply Hpre in Hin. discriminate.
    + apply list_elem_of_singleton in Hin. injection Hin as -> ->.
      split; [reflexivity | ]. split; [exact Hwho | apply last_snoc].
  - destruct H as (Hall & _). rewrite Forall_forall in Hall.
    apply Hall in Hin. discriminate.
  - destruct H as (? & ? & ? & ? & ? & ? & ? & ? & ? & -> & _).
    repeat (apply elem_of_cons in Hin as [Hin | Hin]; [discriminate | ]).
    apply elem_of_nil in Hin. contradiction.
Qed.


(** The result of [run] has a status, and an error record can always be
    printed. *)
Lemma run_result self topic w o w' tr :
  run self topic w = (o, w', tr) ->
  (exists e, o = Ok (error_result e)) \/
  (exists url social_posts email_draft,
     o = Ok (success_result url social_posts email_draft)).
Proof.
  intros Hrun.
  destruct (run_trace _ _ _ _ _ _ Hrun) as [_ [H | [H | H]]].
  - destruct H as (? & ? & e & _ & _ & _ & ->). left. eauto.
  - destruct H as (_ & _ & e & ->). left. eauto.
  - destruct H as (? & ? & ? & ? & url & ? & sp & ed & ? & _ & ->).
    right. eauto.
Qed.

(** C9, as the code has it: on a command line that [argparse] accepts, and
    provided a result with status "success" can be written as JSON (an error
    record always can), [main] prints the result of [run] as a JSON document
    on the standard output, whatever the status, and the exit status is 0 if
    the status of the result is "success" and 1 if it is not. *)
Theorem main_prints_and_exits
    (parse_args : list string -> World Ext -> parse_result * World Ext)
    (BlogPipeline_init : string -> World Ext -> BlogPipeline Ext * World Ext)
    argv w topic config_path w1 pipeline w2 result w3 tr :
  parse_args argv w = (Parsed topic config_path, w1) ->
  BlogPipeline_init config_path w1 = (pipeline, w2) ->
  run pipeline topic w2 = (Ok result, w3, tr) ->
  (py_getitem result "status" = Ok (PStr "success") ->
   exists j, to_json result = Ok j) ->
  exists j t,
    to_json result = Ok j /\
    main parse_args BlogPipeline_init argv w = (t, add_stdout j w3, tr) /\
    (exit_status t = 0 <-> py_getitem result "status" = Ok (PStr "success")) /\
    (exit_status t = 0 \/ exit_status t = 1).
Proof.
  intros Hparse Hinit Hrun Hser.
  unfold main. rewrite Hparse, Hinit. unfold_m. rewrite Hrun.
  unfold print_json.
  destruct (run_result _ _ _ _ _ _ Hrun)
    as [(e & [= ->]) | (url & sp & ed & [= ->])].
  - do 2 eexists. split; [reflexivity | ]. simpl.
    split; [rewrite !app_nil_r; reflexivity | ].
    simpl. split; [ | auto]. split; discriminate.
  - destruct (Hser eq_refl) as [j Hj]. rewrite Hj.
    do 2 eexists. split; [reflexivity | ]. simpl.
    split; [rewrite !app_nil_r; reflexivity | ].
    simpl. split; [ | auto]. split; reflexivity.
Qed.
End PipelineProps.

(** ** The statements on the example worlds *)

(** The entry cached for "seo" is returned as it is. *)
Lemma discover_cache_hit_witness :
  discover kd "seo" seo_cached =
    (Ok (of_json seo_document),
     add_log INFO "Using cached keyword data for '{}'" [PStr "seo"] seo_cached,
     []).
Proof.
  apply (discover_cache_hit kd "seo" seo_cached seo_document).
  vm_compute. reflexivity.
Defined.

(** C1 as stated does not hold: with an empty cache file for "seo",
    [discover] raises the error of [json.load] and calls no provider; with
    the topic "AI/ML", whose cache file would lie in a directory that does
    not exist, [discover] raises the error of [open] after the first
    provider returned. *)
Lemma discover_cache_failure_counterexample :
  (discover kd "seo" seo_corrupt).1.1 =
    Raise (Exn "JSONDecodeError" "Expecting value: line 1 column 1 (char 0)") /\
  (discover kd "seo" seo_corrupt).2 = [] /\
  cache_miss kd "AI/ML" empty_cache /\
  (discover kd "AI/ML" empty_cache).1.1 =
    Raise (file_not_found "cache/keywords/AI/ML.json") /\
  who <$> (discover kd "AI/ML" empty_cache).2 = [SerpAPI].
Proof. vm_compute. repeat split; reflexivity. Qed.

Lemma discover_cache_failure_propagates_witness :
  let o := (discover kd "seo" seo_corrupt).1.1 in
  let tr := (discover kd "seo" seo_corrupt).2 in
  o = Raise (Exn "JSONDecodeError" "Expecting value: line 1 column 1 (char 0)")
  /\ tr = [].
Proof.
  intros o tr.
  apply (discover_cache_failure_propagates kd "seo" seo_corrupt o
           (discover kd "seo" seo_corrupt).1.2 tr).
  - reflexivity.
  - vm_compute. eexists. reflexivity.
  - vm_compute. reflexivity.
Defined.



(** No provider works: the result is the one of the fallback generator. *)
Lemma discover_total_fallback_witness :
  let o := (discover kd_all_down "seo" empty_cache).1.1 in
  let w' := (discover kd_all_down "seo" empty_cache).1.2 in
  let tr := (discover kd_all_down "seo" empty_cache).2 in
  let r := fallback_result "seo" (w_now w') in
  who <$> tr = source_order /\
  last tr = Some (Called Fallback (Ok r)) /\
  o = match open_w_error (w_fs w') (cache_file kd_all_down "seo") with
      | None => Ok r
      | Some e => Raise e
      end /\
  py_getitem r "source" = Ok (PStr "fallback_method") /\
  py_getitem r "top_urls" = Ok (PList []) /\
  py_getitem r "metrics" =
    Ok (PDict [("search_volume", PStr "unknown");
               ("cpc", PStr "unknown");
               ("competition", PStr "unknown")]) /\
  py_getitem r "generated_at" = Ok (PStr (w_now w')) /\
  exists qs,
    py_getitem r "related_queries" = Ok (PList (PStr <$> qs)) /\
    length qs = 10%nat /\
    Forall (contains "seo") qs.
Proof.
  intros o w' tr.
  apply (discover_total_fallback kd_all_down "seo" empty_cache o w' tr).
  - vm_compute. reflexivity.
  - vm_compute. reflexivity.
  - intros c Hc. vm_compute in Hc.
    repeat (apply elem_of_cons in Hc as [-> | Hc]; [intros _; reflexivity | ]).
    apply elem_of_cons in Hc as [-> | Hc]; [discriminate | ].
    apply elem_of_nil in Hc. contradiction.
Defined.

(** From the empty cache, the second call for "seo" returns what the first
    one returned. *)
Lemma discover_twice_witness :
  exists r w1 t1,
    discover kd "seo" empty_cache = (Ok r, w1, t1) /\
    discover kd "seo" w1 =
      (Ok r, add_log INFO "Using cached keyword data for '{}'" [PStr "seo"] w1,
       []).
Proof.
  apply (discover_twice "cache/keywords" "seo" empty_cache).
  - vm_compute. reflexivity.
  - vm_compute. reflexivity.
Defined.

(** The grammar checker raises: the run ends with the error record and the
    stages after it are not called. *)
Lemma run_stage_failure_witness :
  let o := (run broken_grammar_pipeline "remote work" empty_cache).1.1 in
  let tr := (run broken_grammar_pipeline "remote work" empty_cache).2 in
  let e := Exn "RuntimeError" "grammar service timeout" in
  o = Ok (PDict [("status", PStr "error"); ("message", PStr (exn_msg e))]) /\
  who <$> tr = take (S (stage_index Grammar)) stage_order /\
  last tr = Some (Called Grammar (Raise e)).
Proof.
  intros o tr e.
  apply (run_stage_failure broken_grammar_pipeline "remote work" empty_cache o
           (run broken_grammar_pipeline "remote work" empty_cache).1.2 tr).
  - reflexivity.
  - vm_compute. do 2 apply list_elem_of_further. apply list_elem_of_here.
Defined.


(** The command line [remote work] with the broken grammar checker: the
    error record is printed and the exit status is 1. *)
Lemma main_prints_and_exits_witness :
  let r := run broken_grammar_pipeline "remote work" empty_cache in
  let result := error_result (Exn "RuntimeError" "grammar service timeout") in
  exists j t,
    to_json result = Ok j /\
    main stub_parse_args (stub_init broken_grammar_pipeline)
         ["remote work"] empty_cache = (t, add_stdout j r.1.2, r.2) /\
    (exit_status t = 0 <-> py_getitem result "status" = Ok (PStr "success")) /\
    (exit_status t = 0 \/ exit_status t = 1).
Proof.
  intros r result.
  apply (main_prints_and_exits stub_parse_args
           (stub_init broken_grammar_pipeline) ["remote work"] empty_cache
           "remote work" "config.yaml" empty_cache broken_grammar_pipeline
           empty_cache result r.1.2 r.2).
  - reflexivity.
  - reflexivity.
  - vm_compute. reflexivity.
  - vm_compute. discriminate.
Defined.

(** C3 as stated does not hold for every topic: with no provider working and
    the topic "AI/ML", nothing is cached, every provider call fails, and
    [discover] raises the error of [open] instead of returning the result of
    the fallback generator. *)
Lemma discover_total_fallback_counterexample :
  let run := discover kd_all_down "AI/ML" empty_cache in
  cache_miss kd_all_down "AI/ML" empty_cache /\
  who <$> run.2 = source_order /\
  Forall (fun c => is_provider (who c) = true -> failed (how c) = true) run.2 /\
  run.1.1 = Raise (file_not_found "cache/keywords/AI/ML.json").
Proof.
  vm_compute. repeat split.
  repeat constructor; discriminate.
Qed.

(** C6 as stated does not hold for every topic: from the empty cache, the
    first call for "AI/ML" raises, and the second call raises again after
    calling the first provider again. *)
Lemma discover_twice_counterexample :
  let first := discover kd "AI/ML" empty_cache in
  let second := discover kd "AI/ML" first.1.2 in
  cache_miss kd "AI/ML" empty_cache /\
  first.1.1 = Raise (file_not_found "cache/keywords/AI/ML.json") /\
  second.1.1 = Raise (file_not_found "cache/keywords/AI/ML.json") /\
  who <$> second.2 = [SerpAPI].
Proof. vm_compute. repeat split. Qed.

(** C9 as stated does not hold for every invocation: a command line without
    a topic leaves through [argparse] with status 2 and nothing is printed;
    and when the publisher returns an object that [json.dumps] cannot
    serialise, the status of the result is "success", nothing is printed and
    the exit status is 1. *)
Lemma main_prints_and_exits_counterexample :
  let usage := main stub_parse_args (stub_init stub_pipeline) [] empty_cache in
  let object :=
    main stub_parse_args (stub_init url_object_pipeline) ["remote work"]
         empty_cache in
  exit_status usage.1.1 = 2 /\
  w_stdout usage.1.2 = [] /\
  (run url_object_pipeline "remote work" empty_cache).1.1 =
    Ok (success_result (PObject "Url" true) (PList [PStr "post 1"])
          (PStr "newsletter")) /\
  object.1.1 = Uncaught (not_serializable (PObject "Url" true)) /\
  exit_status object.1.1 = 1 /\
  w_stdout object.1.2 = [].
Proof. vm_compute. repeat split. Qed.

(** * Further properties *)

(** ** The cache of [discover] *)

Section CacheProps.
Context {Ext : Type}.
Implicit Types (self : KeywordDiscovery Ext) (w : World Ext).

(** X1: when [discover] returns, the cache file of the topic exists: the next
    call for the topic finds it. *)
Theorem discover_leaves_cache_file self topic w r w' tr :
  discover self topic w = (Ok r, w', tr) ->
  is_Some (fs_nodes (w_fs w') !! cache_file self topic).
Proof.
  intros Hrun.
  destruct (fs_nodes (w_fs w) !! cache_file self topic) as [n | ] eqn:Hn.
  - rewrite (discover_hit _ _ _ _ Hn) in Hrun. injection Hrun as _ <- _.
    simpl. rewrite Hn. eauto.
  - destruct (discover_miss_stored _ _ _ _ _ _ Hn Hrun)
      as (j & _ & [-> | [e ->]]); eauto.
Qed.

(** A write that raises in [json.dump] leaves a file that cannot be loaded. *)
Lemma json_dump_file_truncated {E} (p : string) (v : pyval) (w w' : World Ext)
    (e e0 : exn) (t : list E) :
  json_dump_file p v w = (Raise e, w', t) ->
  to_json v = Raise e0 ->
  open_w_error (w_fs w') p = None ->
  e = e0 /\
  is_Some (fs_nodes (w_fs w') !! p) /\
  exists e', fs_load (w_fs w') p = Raise e'.
Proof.
  unfold json_dump_file. intros Hrun Hv.
  destruct (open_w_error (w_fs w) p) as [e1 | ] eqn:Hopen.
  - injection Hrun as _ <- _. congruence.
  - rewrite Hv in Hrun. injection Hrun as <- <- _. intros _.
    split; [reflexivity | ]. simpl. unfold fs_load, fs_store.
    destruct (fs_nodes (w_fs w) !! p) as [[ | [j | e1 | e1]] | ] eqn:Hp; simpl;
      rewrite ?Hp, ?lookup_insert_eq; eauto.
Qed.

(** X2: a result that [json.dump] cannot serialise spoils the cache: [discover]
    raises the [TypeError] after the cache file was opened, and the next
    call for the topic raises on loading that file, without calling a
    provider. *)
Theorem discover_spoils_cache self topic w o w' tr p r e :
  cache_miss self topic w ->
  discover self topic w = (o, w', tr) ->
  last tr = Some (Called p (Ok r)) ->
  to_json r = Raise e ->
  open_w_error (w_fs w') (cache_file self topic) = None ->
  o = Raise e /\
  exists e',
    discover self topic w' =
      (Raise e',
       add_log INFO "Using cached keyword data for '{}'" [PStr topic] w', []).
Proof.
  unfold cache_miss, discover. intros Hmiss. unfold_m. simpl.
  rewrite Hmiss. simpl.
  provider_cases.
  all: match goal with
    | |- context [@json_dump_file ?X ?E ?p ?v ?w0] =>
        destruct (@json_dump_file X E p v w0) as [[[[] | ?] wd] td] eqn:Hd;
        destruct (json_dump_file_outcome _ _ _ _ _ _ Hd) as (-> & _ & _)
    end; simpl; intros [= <- <- <-] Hlast Hr Hopen;
    rewrite ?app_nil_r in Hlast; simpl in Hlast;
    injection Hlast as <- <-.
  all: try (apply json_dump_file_stored in Hd as (j & Hj & _); congruence).
  all: destruct (json_dump_file_truncated _ _ _ _ _ _ _ Hd Hr Hopen)
         as (-> & [n Hn] & e' & Hload);
    (split; [reflexivity | ]); exists e'.
  all: rewrite Hn; simpl; rewrite Hload; reflexivity.
Qed.

(** X3: the class as written only ever asks its first provider: without a cache
    entry, [discover] calls [_try_serpapi] once and nothing else, and returns
    its result unless opening the cache file for writing raises. *)
Theorem discover_class_calls_serpapi dir topic w o w' tr :
  let self := KeywordDiscovery_class (Ext := Ext) dir in
  cache_miss self topic w ->
  discover self topic w = (o, w', tr) ->
  exists r,
    tr = [Called SerpAPI (Ok r)] /\
    py_getitem r "source" = Ok (PStr "serpapi_simulation") /\
    py_getitem r "primary_keyword" = Ok (PStr topic) /\
    o = match fs_wdeny (w_fs w) (cache_file self topic) with
        | None => Ok r
        | Some e => Raise e
        end.
Proof.
  intros self Hmiss. unfold cache_miss in Hmiss.
  unfold discover. unfold_m. simpl. rewrite Hmiss. simpl.
  unfold json_dump_file, open_w_error. simpl. rewrite Hmiss.
  destruct (fs_wdeny (w_fs w) (cache_file self topic)) as [e | ];
    intros [= <- <- <-]; eexists; repeat split.
Qed.

End CacheProps.

(** ** The results of the providers and the name of the cache file *)

Lemma contains_suffix (topic s : string) : contains topic (topic +:+ s).
Proof. exists "", s. reflexivity. Qed.

Lemma contains_prefix (topic p : string) : contains topic (p +:+ topic).
Proof. exists p, "". rewrite str_app_nil_r. reflexivity. Qed.

Lemma contains_middle (topic p s : string) :
  contains topic (p +:+ topic +:+ s).
Proof. exists p, s. reflexivity. Qed.

Lemma list_ascii_app (a b : string) :
  list_ascii_of_string (a +:+ b) =
  (list_ascii_of_string a ++ list_ascii_of_string b)%list.
Proof.
  induction a as [ | c a IH]; [reflexivity | ].
  change (String c a +:+ b) with (String c (a +:+ b)). simpl.
  rewrite IH. reflexivity.
Qed.

Lemma has_space_app (a b : string) :
  has_space (a +:+ b) = has_space a || has_space b.
Proof. unfold has_space. rewrite list_ascii_app. apply existsb_app. Qed.

(** Replacing the spaces by a text without spaces leaves no space. *)
Lemma has_space_replace (new s : string) :
  has_space new = false -> has_space (str_replace " " new s) = false.
Proof.
  intros Hnew. induction s as [ | c s IH]; [reflexivity | ].
  simpl. destruct (Ascii.eqb c " ") eqn:Hc.
  - rewrite has_space_app, Hnew, IH. reflexivity.
  - unfold has_space in *. cbn [list_ascii_of_string existsb].
    rewrite (Ascii.eqb_sym " " c), Hc. exact IH.
Qed.

Lemma has_space_none_replace (new s : string) :
  has_space s = false -> str_replace " " new s = s.
Proof.
  induction s as [ | c s IH]; [reflexivity | ].
  unfold has_space. cbn [list_ascii_of_string existsb str_replace].
  rewrite (Ascii.eqb_sym " " c).
  destruct (Ascii.eqb c " "); [discriminate | ].
  intros Hs. rewrite (IH Hs). reflexivity.
Qed.

Section ProviderProps.
Context {Ext : Type}.
Implicit Types (self : KeywordDiscovery Ext) (w : World Ext).

(** X5: each of the three simulated providers returns, for every topic and
    without raising, a [KeywordResult] of the JSON data model whose primary
    keyword is the topic, with five related queries that each contain the
    topic and three top URLs, none of which contains a space; it changes
    nothing but the log, by one record. *)
Theorem providers_return_keyword_results topic w :
  Forall
    (fun f : string -> BB Ext pyval =>
       exists r text qs urls,
         f topic w = (Ok r, add_log INFO text [] w) /\
         keyword_result r = true /\
         json_exact r = true /\
         py_getitem r "primary_keyword" = Ok (PStr topic) /\
         py_getitem r "related_queries" = Ok (PList (PStr <$> qs)) /\
         length qs = 5%nat /\
         Forall (contains topic) qs /\
         py_getitem r "top_urls" = Ok (PList (PStr <$> urls)) /\
         length urls = 3%nat /\
         Forall (fun u => has_space u = false) urls)
    [_try_serpapi; _try_keywordsurfer; _try_google_trends].
Proof.
  repeat constructor.
  all: eexists _, _, [_; _; _; _; _], [_; _; _].
  all: repeat (split; [reflexivity | ]).
  all: split;
    [ repeat constructor;
      first [apply contains_suffix | apply contains_prefix
            | apply contains_middle]
    | repeat (split; [reflexivity | ]);
      repeat constructor;
      rewrite ?has_space_app, ?has_space_replace by reflexivity;
      reflexivity ].
Qed.

(** X6: the generator of last resort returns, for every topic and without
    raising, a [KeywordResult] of the JSON data model, stamped with the
    time of the call: ten related queries that each contain the topic, no
    top URL, and the text "unknown" where the providers give numbers. *)
Theorem fallback_method_result topic w :
  exists r qs,
    _fallback_method topic w =
      (Ok r, add_log INFO "Using fallback method for keyword discovery" [] w) /\
    keyword_result r = true /\
    json_exact r = true /\
    py_getitem r "primary_keyword" = Ok (PStr topic) /\
    py_getitem r "related_queries" = Ok (PList (PStr <$> qs)) /\
    length qs = 10%nat /\
    Forall (contains topic) qs /\
    py_getitem r "top_urls" = Ok (PList []) /\
    py_getitem r "generated_at" = Ok (PStr (w_now w)) /\
    forall m x,
      py_getitem r "metrics" = Ok m ->
      x ∈ ["search_volume"; "cpc"; "competition"] ->
      py_getitem m x = Ok (PStr "unknown").
Proof.
  eexists _, [_; _; _; _; _; _; _; _; _; _].
  repeat (split; [reflexivity | ]).
  split.
  - repeat constructor;
      first [apply contains_suffix | apply contains_prefix
            | apply contains_middle].
  - repeat (split; [reflexivity | ]).
    intros m x [= <-] Hx.
    repeat (apply elem_of_cons in Hx as [-> | Hx]; [reflexivity | ]).
    inversion Hx.
Qed.

(** X7: the cache key is a normal form: it contains no space, computing it
    again changes nothing, and a topic without a space is its own key.  So a
    topic with a space has the same key, and the same cache file, as a
    different topic: the one with underscores. *)
Theorem cache_key_normal_form topic :
  has_space (cache_key topic) = false /\
  cache_key (cache_key topic) = cache_key topic /\
  (has_space topic = false -> cache_key topic = topic) /\
  (has_space topic = true ->
   cache_key topic <> topic /\
   forall self, cache_file self (cache_key topic) = cache_file self topic).
Proof.
  assert (Hno : has_space (cache_key topic) = false)
    by (apply has_space_replace; reflexivity).
  assert (Hidem : cache_key (cache_key topic) = cache_key topic)
    by (apply has_space_none_replace; exact Hno).
  split; [exact Hno | ]. split; [exact Hidem | ].
  split; [apply has_space_none_replace | ].
  intros Hsp. split.
  - intros Heq. rewrite Heq in Hno. congruence.
  - intros self. unfold cache_file. rewrite Hidem. reflexivity.
Qed.




(** X9: two topics with the same key share the cache entry: once the class as
    written has cached the result for the first topic, a call for the
    second topic returns that result, whose primary keyword is the first
    topic, and calls no provider. *)
Theorem discover_key_collision dir t1 t2 w :
  let self := KeywordDiscovery_class (Ext := Ext) dir in
  cache_key t1 = cache_key t2 ->
  cache_miss self t1 w ->
  fs_wdeny (w_fs w) (cache_file self t1) = None ->
  exists r w1 tr,
    discover self t1 w = (Ok r, w1, tr) /\
    discover self t2 w1 =
      (Ok r, add_log INFO "Using cached keyword data for '{}'" [PStr t2] w1,
       []) /\
    py_getitem r "primary_keyword" = Ok (PStr t1).
Proof.
  intros self Hkey Hmiss Hw. unfold cache_miss in Hmiss.
  assert (Hfile : cache_file self t2 = cache_file self t1)
    by (unfold cache_file; rewrite Hkey; reflexivity).
  do 3 eexists. split; [ | split].
  - unfold discover. unfold_m. simpl. rewrite Hmiss. simpl.
    unfold json_dump_file, open_w_error. simpl. rewrite Hmiss, Hw.
    reflexivity.
  - erewrite discover_hit.
    2: { rewrite Hfile. simpl. unfold fs_store. rewrite Hmiss. simpl.
         apply lookup_insert_eq. }
    rewrite Hfile. unfold fs_load. simpl. unfold fs_store. rewrite Hmiss.
    simpl. rewrite lookup_insert_eq. reflexivity.
  - reflexivity.
Qed.
End ProviderProps.

(** ** More on [run] and [main] *)

Section RunProps.
Context {Ext : Type}.
Implicit Types (self : BlogPipeline Ext) (w : World Ext).

(** X10: [run] returns the success record only when all nine modules are in the
    registry: with any of them missing, the result is not the success
    record. *)
Theorem run_success_needs_all_modules self topic w w' tr
    url social_posts email_draft :
  run self topic w = (Ok (success_result url social_posts email_draft), w', tr) ->
  loaded (modules self) = replicate 9 true.
Proof.
  unfold run, loaded. unfold_m.
  stage_cases.
  all: intros [= ]; subst; reflexivity.
Qed.

(** X11: a visual stage or a social stage that returns a value without length
    ends the run, although no stage raised: the result is the error record
    of the [TypeError] of [len], and the stages after it are not called (in
    the second case the post is already published). *)
Theorem run_result_without_length self topic w o w' tr v e :
  run self topic w = (o, w', tr) ->
  py_len v = Raise e ->
  (Called Visual (Ok v) ∈ tr ->
   o = Ok (error_result e) /\ who <$> tr = take 4 stage_order) /\
  (Called Social (Ok v) ∈ tr ->
   o = Ok (error_result e) /\ who <$> tr = take 7 stage_order).
Proof.
  unfold run. unfold_m.
  stage_cases.
  all: intros [= <- <- <-] Hlen; split; intros Hin;
    repeat (apply elem_of_cons in Hin as [Hin | Hin];
            [try discriminate Hin; injection Hin as -> | ]);
    try (apply elem_of_nil in Hin; contradiction);
    try congruence.
  all: split; [congruence | reflexivity].
Qed.


(** X13: a cache failure of the keyword stage ends the run: when the stage is the
    class as written and the cache file of the topic cannot be opened for
    writing, the stage raises that failure, the run returns its error
    record, and no other stage is called. *)
Theorem run_cache_write_failure self dir topic w e :
  mod_keyword (modules self) = Some (keyword_stage (KeywordDiscovery_class dir)) ->
  fs_nodes (w_fs w) !! cache_file (KeywordDiscovery_class (Ext := Ext) dir) topic
    = None ->
  fs_wdeny (w_fs w) (cache_file (KeywordDiscovery_class (Ext := Ext) dir) topic)
    = Some e ->
  exists w',
    run self topic w = (Ok (error_result e), w', [Called Keyword (Raise e)]).
Proof.
  intros Hmod Hmiss Hdeny.
  unfold run. unfold_m. rewrite Hmod. simpl.
  unfold keyword_stage, discover. unfold_m. simpl. rewrite Hmiss. simpl.
  unfold json_dump_file, open_w_error. simpl. rewrite Hmiss, Hdeny.
  eexists. reflexivity.
Qed.

(** X14: an exit status 0 of [main], on a command line that [argparse] accepted,
    means that all nine stages were called and returned and that the success
    record is the last document on the standard output. *)
Theorem main_exit_zero
    (parse_args : list string -> World Ext -> parse_result * World Ext)
    (BlogPipeline_init : string -> World Ext -> BlogPipeline Ext * World Ext)
    argv w topic config_path w1 t w' tr :
  parse_args argv w = (Parsed topic config_path, w1) ->
  main parse_args BlogPipeline_init argv w = (t, w', tr) ->
  exit_status t = 0 ->
  who <$> tr = stage_order /\
  Forall (fun c => returned (how c) = true) tr /\
  exists url social_posts email_draft j,
    to_json (success_result url social_posts email_draft) = Ok j /\
    last (w_stdout w') = Some j.
Proof.
  intros Hparse. unfold main. rewrite Hparse.
  destruct (BlogPipeline_init config_path w1) as [pipeline w2].
  unfold_m.
  destruct (run pipeline topic w2) as [[o w3] tr0] eqn:Hrun.
  destruct (run_trace _ _ _ _ _ _ Hrun) as [_ [H | [H | H]]].
  - destruct H as (? & ? & e & _ & _ & _ & ->). simpl.
    intros [= <- <- <-]. discriminate.
  - destruct H as (_ & _ & e & ->). simpl.
    intros [= <- <- <-]. discriminate.
  - destruct H as (? & ? & ? & ? & url & ? & sp & ed & ? & -> & ->).
    unfold print_json.
    destruct (to_json (success_result url sp ed)) as [j | e] eqn:Hj; simpl.
    + intros [= <- <- <-] _. split; [reflexivity | ].
      split; [repeat constructor | ].
      exists url, sp, ed, j. split; [exact Hj | apply last_snoc].
    + intros [= <- <- <-]. discriminate.
Qed.
(** X15: [main] lets an exception escape only after a run in which all nine
    stages returned: the exception is the one [json.dumps] raises on the
    success record, and nothing was printed for it. *)
Theorem main_uncaught_after_success
    (parse_args : list string -> World Ext -> parse_result * World Ext)
    (BlogPipeline_init : string -> World Ext -> BlogPipeline Ext * World Ext)
    argv w topic config_path w1 e w' tr :
  parse_args argv w = (Parsed topic config_path, w1) ->
  main parse_args BlogPipeline_init argv w = (Uncaught e, w', tr) ->
  who <$> tr = stage_order /\
  Forall (fun c => returned (how c) = true) tr /\
  (exists url social_posts email_draft,
     to_json (success_result url social_posts email_draft) = Raise e) /\
  let '(pipeline, w2) := BlogPipeline_init config_path w1 in
  w' = (run pipeline topic w2).1.2.
Proof.
  intros Hparse. unfold main. rewrite Hparse.
  destruct (BlogPipeline_init config_path w1) as [pipeline w2].
  unfold_m.
  destruct (run pipeline topic w2) as [[o w3] tr0] eqn:Hrun.
  destruct (run_trace _ _ _ _ _ _ Hrun) as [_ [H | [H | H]]].
  - destruct H as (? & ? & e0 & _ & _ & _ & ->). simpl.
    intros [= <- <- <-].
  - destruct H as (_ & _ & e0 & ->). simpl.
    intros [= <- <- <-].
  - destruct H as (? & ? & ? & ? & url & ? & sp & ed & ? & -> & ->).
    unfold print_json.
    destruct (to_json (success_result url sp ed)) as [j | e0] eqn:Hj; simpl.
    + intros [= <- <- <-].
    + intros [= <- <- <-]. split; [reflexivity | ].
      split; [repeat constructor | ].
      split; [ | reflexivity]. exists url, sp, ed. exact Hj.
Qed.
End RunProps.

(** ** Construction of the pipeline *)

Section ConstructionProps.
Context {Ext : Type}.
Implicit Types (env : Collaborators Ext) (w : World Ext).


Lemma py_get_other (v : pyval) (k : string) (default : pyval) :
  is_mapping v = false ->
  py_get v k default =
    Raise (Exn "AttributeError"
             ("'" +:+ py_type_name v +:+ "' object has no attribute 'get'")).
Proof. destruct v; try discriminate; reflexivity. Qed.


Lemma load_config_outcome {E} env config_path w :
  _load_config (E := E) env config_path w =
    match load_yaml env config_path w with
    | (Ok v, w1) => (Ok v, w1, [])
    | (Raise e, w1) =>
        (Ok (PDict []),
         add_log ERROR "Failed to load config: {}" [PStr (exn_msg e)] w1, [])
    end.
Proof.
  unfold _load_config, call_bb. unfold_m.
  destruct (load_yaml env config_path w) as [[v | e] w1]; reflexivity.
Qed.




(** X17: [KeywordDiscovery(config)] returns an object only after
    [os.makedirs] succeeded on the object's cache directory, which is its
    only effect; the directory is "cache/keywords" when the configuration
    is falsy or has no "cache_dir", and the value of "cache_dir"
    otherwise. *)
Theorem KeywordDiscovery_init_directory {E} env config w kd w' (t : list E) :
  KeywordDiscovery__init__ env config w = (Ok kd, w', t) ->
  kd = KeywordDiscovery_class (cache_dir kd) /\
  makedirs env (cache_dir kd) w = (Ok tt, w') /\
  t = [] /\
  (py_truthy config = false -> cache_dir kd = "cache/keywords") /\
  (forall d, config = PDict d ->
     match dict_get "cache_dir" d with
     | None => cache_dir kd = "cache/keywords"
     | Some v => v = PStr (cache_dir kd)
     end).
Proof.
  unfold KeywordDiscovery__init__, call_bb. unfold_m.
  destruct (py_truthy config) eqn:Htruthy.
  - destruct (py_get config "cache_dir" (PStr "cache/keywords"))
      as [v | e] eqn:Hget; simpl; [ | discriminate].
    destruct (fspath v) as [path | e] eqn:Hpath; simpl; [ | discriminate].
    destruct (makedirs env path w) as [[[] | e] w1] eqn:Hmk; simpl;
      [ | discriminate].
    intros [= <- <- <-]. simpl. rewrite Hmk.
    repeat split; try discriminate.
    intros d ->. simpl in Hget. destruct v; try discriminate.
    injection Hpath as ->.
    destruct (dict_get "cache_dir" d); congruence.
  - simpl.
    destruct (makedirs env "cache/keywords" w) as [[[] | e] w1] eqn:Hmk; simpl;
      [ | discriminate].
    intros [= <- <- <-]. simpl. rewrite Hmk.
    repeat split.
    intros d ->. destruct d as [ | kv d]; [reflexivity | discriminate].
Qed.

(** X18: [KeywordDiscovery(config)] raises before it touches the file system
    when the configuration is truthy and no mapping ([AttributeError]) and
    when its "cache_dir" is no string ([TypeError]). *)
Theorem KeywordDiscovery_init_rejects {E} env config w o w' (t : list E) :
  KeywordDiscovery__init__ env config w = (o, w', t) ->
  (py_truthy config = true -> is_mapping config = false ->
   w' = w /\
   o = Raise (Exn "AttributeError"
                ("'" +:+ py_type_name config
                 +:+ "' object has no attribute 'get'"))) /\
  (forall d v, config = PDict d -> dict_get "cache_dir" d = Some v ->
   (forall s, v <> PStr s) ->
   w' = w /\
   o = Raise (Exn "TypeError"
                ("expected str, bytes or os.PathLike object, not "
                 +:+ py_type_name v))).
Proof.
  unfold KeywordDiscovery__init__, call_bb. unfold_m. intros H. split.
  - intros Htruthy Hmap. rewrite Htruthy in H.
    rewrite (py_get_other _ _ _ Hmap) in H. simpl in H.
    injection H as <- <- <-. split; reflexivity.
  - intros d v -> Hget Hv.
    assert (Htruthy : py_truthy (PDict d) = true).
    { destruct d; [discriminate | reflexivity]. }
    rewrite Htruthy in H. simpl in H. rewrite Hget in H.
    destruct v; simpl in H; try (injection H as <- <- <-; split; reflexivity).
    exfalso. eapply Hv. reflexivity.
Qed.



(** X21: without a loadable configuration file the pipeline runs on the empty
    configuration: the keyword module, if it was loaded, is the class on
    the directory "cache/keywords", on which [os.makedirs] succeeded. *)
Theorem construct_without_config_file env config_path w e w1 p w' :
  load_yaml env config_path w = (Raise e, w1) ->
  construct env config_path w = (p, w') ->
  config p = PDict [] /\
  forall m, mod_keyword (modules p) = Some m ->
    m = keyword_stage (KeywordDiscovery_class "cache/keywords") /\
    exists wa wb, makedirs env "cache/keywords" wa = (Ok tt, wb).
Proof.
  intros Hyaml. unfold construct, BlogPipeline__init__. unfold_m.
  rewrite load_config_outcome, Hyaml. simpl.
  unfold _load_modules. unfold_l. cbn [py_get dict_get].
  unfold KeywordDiscovery__init__, call_bb. unfold_m. cbn.
  loading_cases.
  all: intros [= <- <-]; (split; [reflexivity | ]); simpl.
  all: try (intros m [=]; fail).
  all: intros m [= <-]; (split; [reflexivity | ]);
    repeat match goal with u : unit |- _ => destruct u end; eauto.
Qed.
End ConstructionProps.

(** ** Examples of the further properties *)

(** After a first call for "seo" the cache file of "seo" exists. *)
Lemma discover_leaves_cache_file_witness :
  is_Some (fs_nodes (w_fs (discover kd "seo" empty_cache).1.2)
             !! "cache/keywords/seo.json").
Proof.
  eapply (discover_leaves_cache_file kd "seo" empty_cache _
            (discover kd "seo" empty_cache).1.2
            (discover kd "seo" empty_cache).2).
  vm_compute. reflexivity.
Defined.

(** The first provider returns a result that holds an object: the call
    raises the error of [json.dump], and the next call for the topic raises
    on the file this one left. *)
Lemma discover_spoils_cache_witness :
  let w' := (discover kd_object "seo" empty_cache).1.2 in
  (discover kd_object "seo" empty_cache).1.1 =
    Raise (not_serializable (PObject "Keyword" true)) /\
  exists e',
    discover kd_object "seo" w' =
      (Raise e',
       add_log INFO "Using cached keyword data for '{}'" [PStr "seo"] w', []).
Proof.
  intros w'.
  apply (discover_spoils_cache kd_object "seo" empty_cache
           (discover kd_object "seo" empty_cache).1.1 w'
           (discover kd_object "seo" empty_cache).2
           SerpAPI (PDict [("primary_keyword", PObject "Keyword" true)])
           (not_serializable (PObject "Keyword" true))).
  - reflexivity.
  - vm_compute. reflexivity.
  - reflexivity.
  - reflexivity.
  - reflexivity.
Defined.

(** The class as written, on an empty cache: one call, of the first
    provider. *)
Lemma discover_class_calls_serpapi_witness :
  exists r,
    (discover kd "seo" empty_cache).2 = [Called SerpAPI (Ok r)] /\
    py_getitem r "source" = Ok (PStr "serpapi_simulation") /\
    py_getitem r "primary_keyword" = Ok (PStr "seo") /\
    (discover kd "seo" empty_cache).1.1 =
      match fs_wdeny (w_fs empty_cache) (cache_file kd "seo") with
      | None => Ok r
      | Some e => Raise e
      end.
Proof.
  apply (discover_class_calls_serpapi "cache/keywords" "seo" empty_cache
           (discover kd "seo" empty_cache).1.1
           (discover kd "seo" empty_cache).1.2
           (discover kd "seo" empty_cache).2).
  - reflexivity.
  - vm_compute. reflexivity.
Defined.


(** "remote work" and "remote_work" have one cache key: the second topic
    is answered with the result of the first. *)
Lemma discover_key_collision_witness :
  exists r w1 tr,
    discover kd "remote work" empty_cache = (Ok r, w1, tr) /\
    discover kd "remote_work" w1 =
      (Ok r,
       add_log INFO "Using cached keyword data for '{}'" [PStr "remote_work"] w1,
       []) /\
    py_getitem r "primary_keyword" = Ok (PStr "remote work").
Proof.
  apply (discover_key_collision "cache/keywords" "remote work" "remote_work"
           empty_cache).
  - reflexivity.
  - reflexivity.
  - reflexivity.
Defined.

(** The pipeline of nine stubs succeeds, and has its nine modules. *)
Lemma run_success_needs_all_modules_witness :
  loaded (modules stub_pipeline) = replicate 9 true.
Proof.
  apply (run_success_needs_all_modules stub_pipeline "remote work" empty_cache
           (run stub_pipeline "remote work" empty_cache).1.2
           (run stub_pipeline "remote work" empty_cache).2
           (PStr "https://blog.example.com/remote-work")
           (PList [PStr "post 1"; PStr "post 2"])
           (PStr "newsletter")).
  vm_compute. reflexivity.
Defined.

(** The visual generator returns [None]: the run ends after four stages
    with the error of [len]. *)
Lemma run_result_without_length_witness :
  let e := Exn "TypeError" "object of type 'NoneType' has no len()" in
  (run no_images_pipeline "remote work" empty_cache).1.1 = Ok (error_result e) /\
  who <$> (run no_images_pipeline "remote work" empty_cache).2 =
    [Keyword; Content; Grammar; Visual].
Proof.
  intros e.
  destruct (run_result_without_length no_images_pipeline "remote work"
              empty_cache
              (run no_images_pipeline "remote work" empty_cache).1.1
              (run no_images_pipeline "remote work" empty_cache).1.2
              (run no_images_pipeline "remote work" empty_cache).2
              PNone e)
    as [H _].
  - vm_compute. reflexivity.
  - reflexivity.
  - apply H. vm_compute. do 3 right. left.
Defined.


(** The topic "AI/ML": its cache file would lie in a directory that does
    not exist, and the run ends in the keyword stage. *)
Lemma run_cache_write_failure_witness :
  exists w',
    run stub_pipeline "AI/ML" empty_cache =
      (Ok (error_result (file_not_found "cache/keywords/AI/ML.json")), w',
       [Called Keyword (Raise (file_not_found "cache/keywords/AI/ML.json"))]).
Proof.
  apply (run_cache_write_failure stub_pipeline "cache/keywords" "AI/ML"
           empty_cache (file_not_found "cache/keywords/AI/ML.json")).
  - reflexivity.
  - reflexivity.
  - reflexivity.
Defined.

(** The command line [remote work] with the nine stubs: exit status 0. *)
Lemma main_exit_zero_witness :
  let r := main stub_parse_args (stub_init stub_pipeline) ["remote work"]
             empty_cache in
  who <$> r.2 = stage_order /\
  Forall (fun c => returned (how c) = true) r.2 /\
  exists url social_posts email_draft j,
    to_json (success_result url social_posts email_draft) = Ok j /\
    last (w_stdout r.1.2) = Some j.
Proof.
  intros r.
  apply (main_exit_zero stub_parse_args (stub_init stub_pipeline)
           ["remote work"] empty_cache "remote work" "config.yaml" empty_cache
           (Returned 0) r.1.2 r.2).
  - reflexivity.
  - vm_compute. reflexivity.
  - reflexivity.
Defined.

(** The publisher returns its URL as an object: the exception of
    [json.dumps] escapes [main] after all nine stages returned. *)
Lemma main_uncaught_after_success_witness :
  let r := main stub_parse_args (stub_init url_object_pipeline)
             ["remote work"] empty_cache in
  who <$> r.2 = stage_order /\
  Forall (fun c => returned (how c) = true) r.2 /\
  (exists url social_posts email_draft,
     to_json (success_result url social_posts email_draft) =
       Raise (not_serializable (PObject "Url" true))) /\
  r.1.2 = (run url_object_pipeline "remote work" empty_cache).1.2.
Proof.
  intros r.
  apply (main_uncaught_after_success stub_parse_args
           (stub_init url_object_pipeline) ["remote work"] empty_cache
           "remote work" "config.yaml" empty_cache
           (not_serializable (PObject "Url" true)) r.1.2 r.2).
  - reflexivity.
  - vm_compute. reflexivity.
Defined.


(** A configured cache directory: it is made, and it is the directory of
    the object. *)
Lemma KeywordDiscovery_init_directory_witness :
  let config := PDict [("cache_dir", PStr "var/keywords")] in
  let r := KeywordDiscovery__init__ (E := Empty_set) (stub_env yaml_missing)
             config no_cache in
  let kd := KeywordDiscovery_class (Ext := unit) "var/keywords" in
  kd = KeywordDiscovery_class (cache_dir kd) /\
  stub_makedirs (cache_dir kd) no_cache = (Ok tt, r.1.2) /\
  r.2 = [] /\
  (py_truthy config = false -> cache_dir kd = "cache/keywords") /\
  (forall d, config = PDict d ->
     match dict_get "cache_dir" d with
     | None => cache_dir kd = "cache/keywords"
     | Some v => v = PStr (cache_dir kd)
     end).
Proof.
  intros config r kd.
  apply (KeywordDiscovery_init_directory (stub_env yaml_missing) config
           no_cache kd r.1.2 r.2).
  vm_compute. reflexivity.
Defined.

(** A string in the place of the configuration: [AttributeError], and no
    directory is made. *)
Lemma KeywordDiscovery_init_rejects_witness :
  let r := KeywordDiscovery__init__ (E := Empty_set) (stub_env yaml_missing)
             (PStr "cache/keywords") no_cache in
  r.1.2 = no_cache /\
  r.1.1 = Raise (Exn "AttributeError" "'str' object has no attribute 'get'").
Proof.
  intros r.
  destruct (KeywordDiscovery_init_rejects (stub_env yaml_missing)
              (PStr "cache/keywords") no_cache r.1.1 r.1.2 r.2) as [H _].
  - vm_compute. reflexivity.
  - apply H; reflexivity.
Defined.


(** No configuration file: the keyword module works on "cache/keywords". *)
Lemma construct_without_config_file_witness :
  let r := construct (stub_env yaml_missing) "config.yaml" no_cache in
  config r.1 = PDict [] /\
  forall m, mod_keyword (modules r.1) = Some m ->
    m = keyword_stage (KeywordDiscovery_class "cache/keywords") /\
    exists wa wb, stub_makedirs "cache/keywords" wa = (Ok tt, wb).
Proof.
  intros r.
  apply (construct_without_config_file (stub_env yaml_missing) "config.yaml"
           no_cache (file_not_found "config.yaml") no_cache r.1 r.2).
  - reflexivity.
  - vm_compute. reflexivity.
Defined.
